(** * Content-Analyzer: the upload route (src/app/api/upload/route.ts)

    A shallow embedding of the request handler [POST], of its three helpers
    [extractTextFromPDF], [extractTextFromImage] and [analyzeContent], and of
    the part of the JavaScript runtime they lean on (string primitives,
    truthiness, [ToNumber], [Math.min]/[Math.max]).  The external
    collaborators (pdfjs-dist, tesseract.js, the z-ai SDK, [JSON.parse]) are
    fields of a record of services that every definition takes as input. *)

From Stdlib Require Import List String Ascii Bool Arith NArith ZArith QArith Lia.
From Stdlib.Strings Require Import Byte.
Import ListNotations.

Set Implicit Arguments.
Set Warnings "-register-all".

(** ** JavaScript strings *)

Module JsString.

(** A JavaScript string is a sequence of UTF-16 code units; [length],
    [substring] and [trim] all count code units. *)
Definition char16 := N.
Definition jsstring := list char16.

(** An ASCII literal of the source, as code units. *)
Definition lit (s : string) : jsstring :=
  map N_of_ascii (list_ascii_of_string s).

Definition char_eqb (a b : char16) : bool := N.eqb a b.

Fixpoint eqb (s t : jsstring) : bool :=
  match s, t with
  | [], [] => true
  | a :: s', b :: t' => char_eqb a b && eqb s' t'
  | _, _ => false
  end.

(** WhiteSpace and LineTerminator code points of ECMAScript: the characters
    that [String.prototype.trim] strips and that [StringToNumber] skips. *)
Definition whitespace_codes : list N :=
  [9; 10; 11; 12; 13; 32; 160; 5760;
   8192; 8193; 8194; 8195; 8196; 8197; 8198; 8199; 8200; 8201; 8202;
   8232; 8233; 8239; 8287; 12288; 65279]%N.

Definition is_ws (c : char16) : bool := existsb (N.eqb c) whitespace_codes.

Fixpoint drop_ws (s : jsstring) : jsstring :=
  match s with
  | [] => []
  | c :: s' => if is_ws c then drop_ws s' else s
  end.

(** [s.trim()] *)
Definition trim (s : jsstring) : jsstring :=
  rev (drop_ws (rev (drop_ws s))).

(** [s.substring(start, end)] for non-negative integer arguments: the
    arguments are swapped when [start > end] and both are capped by the
    length. *)
Definition substring (start end_ : nat) (s : jsstring) : jsstring :=
  let from := Nat.min start end_ in
  let to := Nat.max start end_ in
  firstn (to - from) (skipn from s).

Fixpoint starts_with (p s : jsstring) : bool :=
  match p, s with
  | [], _ => true
  | a :: p', b :: s' => char_eqb a b && starts_with p' s'
  | _ :: _, [] => false
  end.

(** [s.includes(p)] *)
Fixpoint includes (s p : jsstring) : bool :=
  starts_with p s ||
  match s with
  | [] => false
  | _ :: s' => includes s' p
  end.

(** [items.join(sep)] on an array of strings. *)
Fixpoint join (sep : jsstring) (items : list jsstring) : jsstring :=
  match items with
  | [] => []
  | [x] => x
  | x :: rest => x ++ sep ++ join sep rest
  end.

End JsString.
Import JsString.

Definition space : jsstring := [32%N].
Definition newline : jsstring := [10%N].
Definition dquote : jsstring := [34%N].

(** ** Exceptions and results *)

(** What a [throw] carries.  The handler of [POST] only looks at
    [error instanceof Error] and at [error.message]. *)
Inductive Thrown :=
| ErrorObject (message : jsstring)
| NotAnError.

(** A TypeError raised by the runtime itself; its text is engine specific
    and no code of the route reads it. *)
Definition TypeError (detail : string) : Thrown := ErrorObject (lit detail).

Inductive Outcome (A : Type) :=
| Ok (a : A)
| Throw (e : Thrown).
Arguments Ok {A} a.
Arguments Throw {A} e.

(** ** JavaScript numbers and values *)

(** A finite number is represented by its exact value; rounding to binary64
    is not modelled and the two zeros are identified (both are falsy, and
    [Math.max]/[Math.min] tell them apart only in the sign of a zero). *)
Inductive Num :=
| NaN
| Infinity (negative : bool)
| Fin (q : Q).

Inductive Value :=
| VUndefined
| VNull
| VBool (b : bool)
| VNum (n : Num)
| VStr (s : jsstring)
| VArr (items : list Value)
| VObj (props : list (jsstring * Value)).

Module Js.

(** *** StringToNumber (ECMA-262, 7.1.4.1.1) *)

Definition decimal_digit (c : char16) : option N :=
  if (48 <=? c)%N && (c <=? 57)%N then Some (c - 48)%N else None.

Definition hex_digit (c : char16) : option N :=
  if (48 <=? c)%N && (c <=? 57)%N then Some (c - 48)%N
  else if (97 <=? c)%N && (c <=? 102)%N then Some (c - 87)%N
  else if (65 <=? c)%N && (c <=? 70)%N then Some (c - 55)%N
  else None.

Definition octal_digit (c : char16) : option N :=
  if (48 <=? c)%N && (c <=? 55)%N then Some (c - 48)%N else None.

Definition binary_digit (c : char16) : option N :=
  if (48 <=? c)%N && (c <=? 49)%N then Some (c - 48)%N else None.

(** Reads the longest run of digits: the value read so far, the number of
    digits read, and what is left. *)
Fixpoint read_digits (base : N) (digit : char16 -> option N)
         (s : jsstring) (acc : N) (count : nat) : N * nat * jsstring :=
  match s with
  | [] => (acc, count, [])
  | c :: s' =>
      match digit c with
      | Some d => read_digits base digit s' (acc * base + d)%N (S count)
      | None => (acc, count, s)
      end
  end.

(** NonDecimalIntegerLiteral: 0x, 0o or 0b, at least one digit, no sign. *)
Definition non_decimal (s : jsstring) : option Num :=
  match s with
  | 48%N :: p :: ds =>
      let go base digit :=
        match read_digits base digit ds 0%N 0 with
        | (v, S _, []) => Some (Fin (inject_Z (Z.of_N v)))
        | _ => None
        end in
      if (p =? 120)%N || (p =? 88)%N then go 16%N hex_digit
      else if (p =? 111)%N || (p =? 79)%N then go 8%N octal_digit
      else if (p =? 98)%N || (p =? 66)%N then go 2%N binary_digit
      else None
  | _ => None
  end.

(** [m * 10 ^ e] as a rational. *)
Definition scale10 (m : Z) (e : Z) : Q :=
  if (0 <=? e)%Z then inject_Z (m * 10 ^ e)
  else Qmake m (Z.to_pos (10 ^ (- e))).

(** ExponentPart, when present: e or E, an optional sign, digits. *)
Definition exponent_part (s : jsstring) : option Z :=
  match s with
  | [] => Some 0%Z
  | c :: s' =>
      if (c =? 101)%N || (c =? 69)%N then
        let '(neg, ds) :=
          match s' with
          | 45%N :: r => (true, r)
          | 43%N :: r => (false, r)
          | _ => (false, s')
          end in
        match read_digits 10%N decimal_digit ds 0%N 0 with
        | (v, S _, []) => Some (if neg then (- Z.of_N v)%Z else Z.of_N v)
        | _ => None
        end
      else None
  end.

(** StrUnsignedDecimalLiteral. *)
Definition unsigned_decimal (neg : bool) (s : jsstring) : Num :=
  if JsString.eqb s (lit "Infinity") then Infinity neg
  else
    let '(ip, ni, r1) := read_digits 10%N decimal_digit s 0%N 0 in
    let '(m, ni_nf, nf, r2) :=
      match r1 with
      | 46%N :: r =>
          let '(m, k, r') := read_digits 10%N decimal_digit r ip 0 in
          (m, (ni + k)%nat, k, r')
      | _ => (ip, ni, 0%nat, r1)
      end in
    match ni_nf with
    | O => NaN
    | S _ =>
        match exponent_part r2 with
        | Some e =>
            let mz := if neg then (- Z.of_N m)%Z else Z.of_N m in
            Fin (scale10 mz (e - Z.of_nat nf))
        | None => NaN
        end
    end.

Definition StringToNumber (s : jsstring) : Num :=
  match trim s with
  | [] => Fin 0
  | t =>
      match non_decimal t with
      | Some n => n
      | None =>
          match t with
          | 45%N :: r => unsigned_decimal true r
          | 43%N :: r => unsigned_decimal false r
          | _ => unsigned_decimal false t
          end
      end
  end.

(** *** ToBoolean *)

Definition ToBoolean (v : Value) : bool :=
  match v with
  | VUndefined | VNull => false
  | VBool b => b
  | VNum NaN => false
  | VNum (Infinity _) => true
  | VNum (Fin q) => negb (Qeq_bool q 0)
  | VStr s => match s with [] => false | _ => true end
  | VArr _ | VObj _ => true
  end.

(** [a || b] *)
Definition or_else (a b : Value) : Value := if ToBoolean a then a else b.

(** *** Property read [v.key]

    Only used with the keys engagementScore, sentiment, suggestions and
    keyTopics, which no built-in prototype defines: on a primitive or an
    array the read gives undefined.  An object produced by JSON.parse has
    own data properties only. *)

Fixpoint assoc (key : jsstring) (props : list (jsstring * Value)) : option Value :=
  match props with
  | [] => None
  | (k, v) :: rest => if JsString.eqb k key then Some v else assoc key rest
  end.

Definition get (v : Value) (key : jsstring) : Outcome Value :=
  match v with
  | VUndefined | VNull => Throw (TypeError "Cannot read properties of null")
  | VObj props =>
      Ok (match assoc key props with Some x => x | None => VUndefined end)
  | _ => Ok VUndefined
  end.

(** *** ToNumber

    For an array or object ToNumber goes through OrdinaryToPrimitive: the
    inherited valueOf returns the object itself, so the result is
    StringToNumber of toString().  A plain object prints as
    [[object Object]] unless an own property shadows toString; a value
    parsed from JSON is never callable, so the shadowing makes the
    conversion throw a TypeError.  An array prints as the join of its
    elements with a comma, undefined and null printing as the empty
    string. *)

Definition has_key (key : jsstring) (props : list (jsstring * Value)) : bool :=
  match assoc key props with Some _ => true | None => false end.

(** Does ToString(v) throw? *)
Fixpoint to_string_throws (v : Value) : bool :=
  match v with
  | VObj props => has_key (lit "toString") props
  | VArr items => existsb to_string_throws items
  | _ => false
  end.

(** The number when nothing throws.  With two elements or more the join
    holds a comma, which no numeric literal does.  With one element it is
    StringToNumber of that element's own string; a number printed and read
    back is itself. *)
Fixpoint to_number (v : Value) : Num :=
  match v with
  | VUndefined => NaN
  | VNull => Fin 0
  | VBool b => Fin (if b then 1 else 0)
  | VNum n => n
  | VStr s => StringToNumber s
  | VArr [] => Fin 0
  | VArr [x] =>
      match x with
      | VUndefined | VNull => Fin 0
      | VBool _ => NaN
      | VNum n => n
      | VStr s => StringToNumber s
      | VArr _ => to_number x
      | VObj _ => NaN
      end
  | VArr _ => NaN
  | VObj _ => NaN
  end.

Definition ToNumber (v : Value) : Outcome Num :=
  if to_string_throws v
  then Throw (TypeError "Cannot convert object to primitive value")
  else Ok (to_number v).

(** *** Math.max and Math.min of two arguments *)

Definition num_leb (a b : Num) : bool :=
  match a, b with
  | NaN, _ | _, NaN => false
  | Infinity true, _ => true
  | _, Infinity false => true
  | Infinity false, _ => false
  | _, Infinity true => false
  | Fin p, Fin q => Qle_bool p q
  end.

Definition max_num (a b : Num) : Num :=
  match a, b with
  | NaN, _ | _, NaN => NaN
  | _, _ => if num_leb a b then b else a
  end.

Definition min_num (a b : Num) : Num :=
  match a, b with
  | NaN, _ | _, NaN => NaN
  | _, _ => if num_leb a b then a else b
  end.

(** Both arguments are converted, left to right, before comparing. *)
Definition Math_max (a b : Value) : Outcome Num :=
  match ToNumber a with
  | Throw e => Throw e
  | Ok x => match ToNumber b with
            | Throw e => Throw e
            | Ok y => Ok (max_num x y)
            end
  end.

Definition Math_min (a b : Value) : Outcome Num :=
  match ToNumber a with
  | Throw e => Throw e
  | Ok x => match ToNumber b with
            | Throw e => Throw e
            | Ok y => Ok (min_num x y)
            end
  end.

End Js.

(** ** External collaborators *)

Definition Buffer := list byte.

(** pdfjs-dist *)
Record TextItem := { str : jsstring }.
Record TextContent := { items : list TextItem }.
Record PDFPageProxy := { getTextContent : Outcome TextContent }.
Record PDFDocumentProxy := {
  numPages : nat;
  getPage : nat -> Outcome PDFPageProxy
}.

(** tesseract.js; [recognize] gives [data.text]. *)
Record Worker := {
  loadLanguage : jsstring -> Outcome unit;
  initialize : jsstring -> Outcome unit;
  recognize : Buffer -> Outcome jsstring;
  terminate : Outcome unit
}.

(** z-ai-web-dev-sdk *)
Record ChatMessage := { role : jsstring; content : jsstring }.
Record ChatRequest := {
  messages : list ChatMessage;
  temperature : Q;
  max_tokens : N
}.
Record ReplyMessage := { reply_content : option jsstring }.
Record Choice := { message : option ReplyMessage }.
Record Completion := { choices : list Choice }.
Record ZaiClient := {
  chat_completions_create : ChatRequest -> Outcome Completion
}.

(** Everything the route reaches outside of its own file. *)
Record Services := {
  import_pdfjs : Outcome unit;
  getDocument : Buffer -> Outcome PDFDocumentProxy;
  createWorker : Outcome Worker;
  import_zai : Outcome unit;
  ZAI_create : Outcome ZaiClient;
  JSON_parse : jsstring -> Outcome Value
}.

(** A call that left the process. *)
Inductive Event :=
| EvImport (module : string)
| EvGetDocument (data : Buffer)
| EvGetPage (i : nat)
| EvGetTextContent (i : nat)
| EvCreateWorker
| EvLoadLanguage (lang : jsstring)
| EvInitialize (lang : jsstring)
| EvRecognize (image : Buffer)
| EvTerminate
| EvZaiCreate
| EvChatCreate (req : ChatRequest).

(** ** The monad of the route: a log of external calls and a result or a
    thrown value *)

Definition M (A : Type) : Type := list Event * Outcome A.

Definition ret {A} (a : A) : M A := ([], Ok a).
Definition throw {A} (e : Thrown) : M A := ([], Throw e).
Definition lift {A} (r : Outcome A) : M A := ([], r).
Definition call {A} (ev : Event) (r : Outcome A) : M A := ([ev], r).

Definition bind {A B} (m : M A) (k : A -> M B) : M B :=
  match m with
  | (t, Ok a) => let (t', r) := k a in (t ++ t', r)
  | (t, Throw e) => (t, Throw e)
  end.

(** [try { m } catch (error) { h error }] *)
Definition try_catch {A} (m : M A) (h : Thrown -> M A) : M A :=
  match m with
  | (t, Ok a) => (t, Ok a)
  | (t, Throw e) => let (t', r) := h e in (t ++ t', r)
  end.

Definition trace {A} (m : M A) : list Event := fst m.
Definition result {A} (m : M A) : Outcome A := snd m.

Notation "x <- m ;; k" := (bind m (fun x => k))
  (at level 61, m at next level, right associativity).
Notation "m ;;; k" := (bind m (fun _ => k))
  (at level 61, right associativity).

(** ** The request and the response *)

Record File := {
  name : jsstring;
  type : jsstring;
  size : N;
  arrayBuffer : Outcome Buffer
}.

Inductive FormDataEntryValue :=
| EntryFile (f : File)
| EntryString (s : jsstring).

Definition FormData := list (jsstring * FormDataEntryValue).

(** [formData.get(key)]: the first entry of that name, or null. *)
Fixpoint FormData_get (fd : FormData) (key : jsstring) : option FormDataEntryValue :=
  match fd with
  | [] => None
  | (k, v) :: rest => if JsString.eqb k key then Some v else FormData_get rest key
  end.

Record NextRequest := { formData : Outcome FormData }.

Record NextResponse := { body : Value; status : N }.

(** [NextResponse.json(body, { status })] *)
Definition NextResponse_json (b : Value) (st : N) : NextResponse :=
  {| body := b; status := st |}.

Definition num_of_N (n : N) : Num := Fin (inject_Z (Z.of_N n)).
Definition num_of_nat (n : nat) : Num := Fin (inject_Z (Z.of_nat n)).

Record AnalysisResult := {
  engagementScore : Num;
  sentiment : Value;
  suggestions : Value;
  keyTopics : Value
}.

Definition analysis_object (a : AnalysisResult) : Value :=
  VObj [ (lit "engagementScore", VNum (engagementScore a));
         (lit "sentiment", sentiment a);
         (lit "suggestions", suggestions a);
         (lit "keyTopics", keyTopics a) ].

(** ** The route *)

Section Route.

Variable svc : Services.

(** *** extractTextFromPDF (lines 7-37) *)

(** The body of [for (let i = 1; i <= pdf.numPages; i++)], over the page
    numbers still to visit. *)
Fixpoint pdf_pages (pdf : PDFDocumentProxy) (pages : list nat)
         (extractedText : jsstring) : M jsstring :=
  match pages with
  | [] => ret extractedText
  | i :: rest =>
      page <- call (EvGetPage i) (getPage pdf i) ;;
      textContent <- call (EvGetTextContent i) (getTextContent page) ;;
      let pageText := join space (map str (items textContent)) in
      pdf_pages pdf rest (extractedText ++ pageText ++ newline)
  end.

Definition extractTextFromPDF (buffer : Buffer) : M jsstring :=
  try_catch
    (call (EvImport "pdfjs-dist/build/pdf") (import_pdfjs svc) ;;;
     pdf <- call (EvGetDocument buffer) (getDocument svc buffer) ;;
     extractedText <- pdf_pages pdf (seq 1 (numPages pdf)) [] ;;
     ret (trim extractedText))
    (fun _ => throw (ErrorObject (lit "Failed to extract text from PDF"))).

(** *** extractTextFromImage (lines 40-57) *)

Definition extractTextFromImage (buffer : Buffer) : M jsstring :=
  try_catch
    (worker <- call EvCreateWorker (createWorker svc) ;;
     call (EvLoadLanguage (lit "eng")) (loadLanguage worker (lit "eng")) ;;;
     call (EvInitialize (lit "eng")) (initialize worker (lit "eng")) ;;;
     text <- call (EvRecognize buffer) (recognize worker buffer) ;;
     call EvTerminate (terminate worker) ;;;
     ret (trim text))
    (fun _ => throw (ErrorObject (lit "Failed to extract text from image"))).

(** *** analyzeContent (lines 60-140) *)

(** The template literal of lines 68-85, before and after the
    interpolated text. *)
Definition prompt_head : jsstring :=
  lit "
    Analyze the following text content for social media engagement and provide:
    1. An engagement score from 0-100
    2. Sentiment analysis (positive, neutral, or negative)
    3. 4 specific suggestions to improve social media engagement
    4. Key topics mentioned in the content

    Content to analyze:
    ".

Definition prompt_tail : jsstring :=
  lit " // Limit text length for analysis

    Please respond in JSON format with the following structure:
    {
      " ++ dquote ++ lit "engagementScore" ++ dquote ++ lit ": number,
      " ++ dquote ++ lit "sentiment" ++ dquote ++ lit ": "
    ++ dquote ++ lit "positive" ++ dquote ++ lit " | "
    ++ dquote ++ lit "neutral" ++ dquote ++ lit " | "
    ++ dquote ++ lit "negative" ++ dquote ++ lit ",
      " ++ dquote ++ lit "suggestions" ++ dquote ++ lit ": string[],
      " ++ dquote ++ lit "keyTopics" ++ dquote ++ lit ": string[]
    }
    ".

Definition prompt_of (text : jsstring) : jsstring :=
  prompt_head ++ substring 0 2000 text ++ prompt_tail.

Definition chat_request (text : jsstring) : ChatRequest :=
  {| messages :=
       [ {| role := lit "system";
            content := lit "You are a social media content analysis expert. Provide detailed analysis and actionable suggestions." |};
         {| role := lit "user"; content := prompt_of text |} ];
     temperature := 7 # 10;
     max_tokens := 1000 |}.

Definition default_suggestions : Value :=
  VArr [ VStr (lit "Add more engaging questions to increase comments");
         VStr (lit "Include relevant hashtags to improve discoverability");
         VStr (lit "Use more visual content to boost engagement");
         VStr (lit "Post during peak hours for better reach") ].

Definition default_keyTopics : Value :=
  VArr [ VStr (lit "Content"); VStr (lit "Social Media") ].

(** The object returned from the [catch] block (lines 128-138). *)
Definition fallback_analysis : AnalysisResult :=
  {| engagementScore := Fin 75;
     sentiment := VStr (lit "neutral");
     suggestions := default_suggestions;
     keyTopics := default_keyTopics |}.

(** [completion.choices[0]?.message?.content] *)
Definition response_content (completion : Completion) : option jsstring :=
  match choices completion with
  | [] => None
  | c :: _ =>
      match message c with
      | None => None
      | Some m => reply_content m
      end
  end.

(** The object literal of lines 113-123, its properties evaluated in
    order. *)
Definition build_analysis (analysis : Value) : M AnalysisResult :=
  score_in <- lift (Js.get analysis (lit "engagementScore")) ;;
  lower <- lift (Js.Math_max (VNum (Fin 0)) (Js.or_else score_in (VNum (Fin 75)))) ;;
  score <- lift (Js.Math_min (VNum (Fin 100)) (VNum lower)) ;;
  sentiment_in <- lift (Js.get analysis (lit "sentiment")) ;;
  suggestions_in <- lift (Js.get analysis (lit "suggestions")) ;;
  keyTopics_in <- lift (Js.get analysis (lit "keyTopics")) ;;
  ret {| engagementScore := score;
         sentiment := Js.or_else sentiment_in (VStr (lit "neutral"));
         suggestions := Js.or_else suggestions_in default_suggestions;
         keyTopics := Js.or_else keyTopics_in default_keyTopics |}.

Definition analyzeContent (text : jsstring) : M AnalysisResult :=
  try_catch
    (call (EvImport "z-ai-web-dev-sdk") (import_zai svc) ;;;
     zai <- call EvZaiCreate (ZAI_create svc) ;;
     let req := chat_request text in
     completion <- call (EvChatCreate req) (chat_completions_create zai req) ;;
     match response_content completion with
     | None | Some [] =>
         throw (ErrorObject (lit "No response from AI analysis"))
     | Some responseContent =>
         analysis <- lift (JSON_parse svc responseContent) ;;
         build_analysis analysis
     end)
    (fun _ => ret fallback_analysis).

(** *** POST (lines 142-244) *)

Definition allowedTypes : list jsstring :=
  [ lit "application/pdf"; lit "image/png"; lit "image/jpeg";
    lit "image/jpg"; lit "image/tiff"; lit "image/bmp" ].

Definition maxSize : N := 10 * 1024 * 1024.

(** [allowedTypes.includes(t)] *)
Definition array_includes (l : list jsstring) (t : jsstring) : bool :=
  existsb (JsString.eqb t) l.

Definition error_body (msg : string) : Value :=
  VObj [ (lit "error", VStr (lit msg)) ].

Definition no_file_response : NextResponse :=
  NextResponse_json (error_body "No file provided") 400.

Definition unsupported_type_response : NextResponse :=
  NextResponse_json
    (error_body "Unsupported file type. Please upload PDF or image files.") 400.

Definition too_large_response : NextResponse :=
  NextResponse_json
    (error_body "File too large. Please upload files smaller than 10MB.") 400.

Definition no_text_response : NextResponse :=
  NextResponse_json
    (error_body "No readable text found in the file. Please ensure the file contains text content.") 400.

(** The preview of line 214. *)
Definition preview (extractedText : jsstring) : jsstring :=
  substring 0 1000 extractedText
    ++ (if (1000 <? List.length extractedText)%nat then lit "..." else lit "").

Definition success_response (file : File) (extractedText : jsstring)
           (analysis : AnalysisResult) : NextResponse :=
  NextResponse_json
    (VObj [ (lit "success", VBool true);
            (lit "fileName", VStr (name file));
            (lit "fileSize", VNum (num_of_N (size file)));
            (lit "fileType", VStr (type file));
            (lit "extractedText", VStr (preview extractedText));
            (lit "analysis", analysis_object analysis);
            (lit "textLength", VNum (num_of_nat (List.length extractedText))) ])
    200.

(** The message chosen in the [catch] block (lines 223-237). *)
Definition error_message (error : Thrown) : string :=
  match error with
  | ErrorObject msg =>
      if includes msg (lit "Failed to extract text from PDF") then
        "Unable to read PDF content. The file may be corrupted or password-protected."
      else if includes msg (lit "Failed to extract text from image") then
        "Unable to extract text from image. Please ensure the image contains readable text."
      else if includes msg (lit "No response from AI analysis") then
        "AI analysis service temporarily unavailable. Please try again later."
      else if includes msg (lit "ENOSPC") then
        "Server storage full. Please try again later."
      else if includes msg (lit "ETIMEDOUT") then
        "Request timed out. Please try again with a smaller file."
      else "Failed to process file. Please try again."
  | NotAnError => "Failed to process file. Please try again."
  end%string.

(** The test of line 196: [!extractedText || extractedText.length < 10]. *)
Definition too_short (extractedText : jsstring) : bool :=
  match extractedText with [] => true | _ => false end
  || (List.length extractedText <? 10)%nat.

(** Lines 184-191: the extractor is chosen by the declared type. *)
Definition extract_text (file : File) (buffer : Buffer) : M jsstring :=
  if JsString.eqb (type file) (lit "application/pdf")
  then extractTextFromPDF buffer
  else extractTextFromImage buffer.

(** Lines 180-217: what follows the three validation checks. *)
Definition process_file (file : File) : M NextResponse :=
  bytes <- lift (arrayBuffer file) ;;
  let buffer : Buffer := bytes in
  extractedText <- extract_text file buffer ;;
  let extractedText := trim extractedText in
  if too_short extractedText
  then ret no_text_response
  else
    analysis <- analyzeContent extractedText ;;
    ret (success_response file extractedText analysis).

(** The [catch] block of lines 219-243. *)
Definition on_error (error : Thrown) : M NextResponse :=
  ret (NextResponse_json (error_body (error_message error)) 500).

(** [formData.get('file') as File] then the checks of lines 147-178.  The
    cast is unchecked: a text field arrives as a string, whose [type] is
    undefined and so not among the allowed types. *)
Definition POST (request : NextRequest) : M NextResponse :=
  try_catch
    (fd <- lift (formData request) ;;
     match FormData_get fd (lit "file") with
     | None | Some (EntryString []) => ret no_file_response
     | Some (EntryString (_ :: _)) => ret unsupported_type_response
     | Some (EntryFile file) =>
         if negb (array_includes allowedTypes (type file))
         then ret unsupported_type_response
         else if (maxSize <? size file)%N
         then ret too_large_response
         else process_file file
     end)
    on_error.

End Route.

(** ** Vocabulary of the statements *)

(** The request carries the upload [file] and passes the three checks. *)
Definition accepted (request : NextRequest) (file : File) : Prop :=
  exists fd,
    formData request = Ok fd /\
    FormData_get fd (lit "file") = Some (EntryFile file) /\
    array_includes allowedTypes (type file) = true /\
    (size file <= maxSize)%N.

(** The request is accepted and its extractor returns [text]. *)
Definition extracts (svc : Services) (request : NextRequest)
           (file : File) (text : jsstring) : Prop :=
  exists buffer,
    accepted request file /\
    arrayBuffer file = Ok buffer /\
    result (extract_text svc file buffer) = Ok text.

(** The request is accepted and its extractor throws. *)
Definition extraction_fails (svc : Services) (request : NextRequest)
           (file : File) : Prop :=
  exists buffer e,
    accepted request file /\
    arrayBuffer file = Ok buffer /\
    result (extract_text svc file buffer) = Throw e.

(** The remote service answered [text] and the answer parsed to
    [analysis]: control reaches line 113 with that value. *)
Definition replies (svc : Services) (text : jsstring) (analysis : Value) : Prop :=
  exists u zai completion c cs,
    import_zai svc = Ok u /\
    ZAI_create svc = Ok zai /\
    chat_completions_create zai (chat_request text) = Ok completion /\
    response_content completion = Some (c :: cs) /\
    JSON_parse svc (c :: cs) = Ok analysis.

(** The ways the remote analysis can fail before line 113. *)
Inductive analysis_fails (svc : Services) (text : jsstring) : Prop :=
| import_throws e :
    import_zai svc = Throw e -> analysis_fails svc text
| create_throws u e :
    import_zai svc = Ok u -> ZAI_create svc = Throw e ->
    analysis_fails svc text
| call_throws u zai e :
    import_zai svc = Ok u -> ZAI_create svc = Ok zai ->
    chat_completions_create zai (chat_request text) = Throw e ->
    analysis_fails svc text
| empty_content u zai completion :
    import_zai svc = Ok u -> ZAI_create svc = Ok zai ->
    chat_completions_create zai (chat_request text) = Ok completion ->
    (response_content completion = None \/ response_content completion = Some []) ->
    analysis_fails svc text
| unparseable u zai completion c cs e :
    import_zai svc = Ok u -> ZAI_create svc = Ok zai ->
    chat_completions_create zai (chat_request text) = Ok completion ->
    response_content completion = Some (c :: cs) ->
    JSON_parse svc (c :: cs) = Throw e ->
    analysis_fails svc text.

(** A number in [0,100]. *)
Definition in_range (n : Num) : Prop :=
  exists q, n = Fin q /\ 0 <= q /\ q <= 100.

(** A whole number. *)
Definition is_integer (n : Num) : Prop :=
  exists q z, n = Fin q /\ q == inject_Z z.

(** An integer in [0,100]. *)
Definition integer_in_range (n : Num) : Prop :=
  in_range n /\ is_integer n.

(** The values on which the clamp of line 114 stays within numbers:
    numbers themselves, booleans, null, and a missing property. *)
Definition number_like (v : Value) : bool :=
  match v with
  | VUndefined | VNull | VBool _ | VNum _ => true
  | VStr _ | VArr _ | VObj _ => false
  end.

Definition is_analysis_event (ev : Event) : bool :=
  match ev with
  | EvImport m => String.eqb m "z-ai-web-dev-sdk"
  | EvZaiCreate | EvChatCreate _ => true
  | _ => false
  end.

Definition is_pdf_event (ev : Event) : bool :=
  match ev with
  | EvImport m => String.eqb m "pdfjs-dist/build/pdf"
  | EvGetDocument _ | EvGetPage _ | EvGetTextContent _ => true
  | _ => false
  end.

Definition is_ocr_event (ev : Event) : bool :=
  match ev with
  | EvCreateWorker | EvLoadLanguage _ | EvInitialize _
  | EvRecognize _ | EvTerminate => true
  | _ => false
  end.

(** What one page of the document gives: the [str] of its items. *)
Definition page_items (pdf : PDFDocumentProxy) (i : nat) : Outcome (list jsstring) :=
  match getPage pdf i with
  | Ok page =>
      match getTextContent page with
      | Ok tc => Ok (map str (items tc))
      | Throw e => Throw e
      end
  | Throw e => Throw e
  end.

(** [Math.min(100, Math.max(0, v || 75))], the clamp of line 114. *)
Definition clamp_score (v : Value) : Outcome Num :=
  match Js.Math_max (VNum (Fin 0)) (Js.or_else v (VNum (Fin 75))) with
  | Ok lower => Js.Math_min (VNum (Fin 100)) (VNum lower)
  | Throw e => Throw e
  end.

(** The value is not a fraction: a whole number, or no finite number. *)
Definition whole (v : Value) : Prop :=
  match v with
  | VNum (Fin q) => exists z, q == inject_Z z
  | _ => True
  end.

(** What one turn of the page loop appends (line 28). *)
Definition page_line (p : list jsstring) : jsstring := join space p ++ newline.

(** The string does not begin with whitespace. *)
Definition starts_clean (s : jsstring) : Prop :=
  match s with
  | [] => True
  | c :: _ => is_ws c = false
  end.

(** *** The specification's wording *)

Module Spec.

(** Section 4.1, Extract: each page's items joined by a single space,
    pages joined by newline, the whole trimmed. *)
Definition pdf_text (pages : list (list jsstring)) : jsstring :=
  trim (join newline (map (join space) pages)).

(** Section 7: the kinds of validation error. *)
Inductive ValidationError :=
| MissingFileError
| UnsupportedTypeError
| FileTooLargeError.

Definition accepted_types : list jsstring :=
  [ lit "application/pdf"; lit "image/png"; lit "image/jpeg";
    lit "image/jpg"; lit "image/tiff"; lit "image/bmp" ].

(** Section 4.1, Validate: missing first, then type, then size. *)
Definition validate (upload : option File) : option ValidationError :=
  match upload with
  | None => Some MissingFileError
  | Some file =>
      if in_dec (list_eq_dec N.eq_dec) (type file) accepted_types
      then if (size file <=? 10 * 1024 * 1024)%N
           then None
           else Some FileTooLargeError
      else Some UnsupportedTypeError
  end.

(** Section 3, ResponseEnvelope: at most 1000 characters, with a suffix
    marker when truncated. *)
Definition preview (text : jsstring) : jsstring :=
  if (List.length text <=? 1000)%nat then text
  else firstn 1000 text ++ lit "...".

End Spec.

(** The response the route gives for each kind of validation error. *)
Definition validation_response (k : Spec.ValidationError) : NextResponse :=
  match k with
  | Spec.MissingFileError => no_file_response
  | Spec.UnsupportedTypeError => unsupported_type_response
  | Spec.FileTooLargeError => too_large_response
  end.

(** ** Sample worlds *)

Module Samples.

Definition item (s : string) : TextItem := {| str := lit s |}.

Definition page_of (l : list string) : PDFPageProxy :=
  {| getTextContent := Ok {| items := map item l |} |}.

(** A two-page document. *)
Definition two_pages : PDFDocumentProxy :=
  {| numPages := 2;
     getPage := fun i =>
       match i with
       | 1%nat => Ok (page_of ["Hello"; "world"]%string)
       | 2%nat => Ok (page_of ["from"; "page"; "two"]%string)
       | _ => Throw (ErrorObject (lit "Invalid page request"))
       end |}.

Definition worker_reading (text : jsstring) : Worker :=
  {| loadLanguage := fun _ => Ok tt;
     initialize := fun _ => Ok tt;
     recognize := fun _ => Ok text;
     terminate := Ok tt |}.

Definition completion_of (reply : option jsstring) : Completion :=
  {| choices := [ {| message := Some {| reply_content := reply |} |} ] |}.

(** The reply text [{"engagementScore": v}] around a printed value. *)
Definition score_json (printed : jsstring) : jsstring :=
  lit "{" ++ dquote ++ lit "engagementScore" ++ dquote ++ lit ": "
    ++ printed ++ lit "}".

(** A world where both extractors work, the remote service answers
    [reply] and JSON.parse maps [reply] to [parsed]. *)
Definition world (pdf : Outcome PDFDocumentProxy) (ocr : jsstring)
           (reply : Outcome Completion) (parsed : Outcome Value) : Services :=
  {| import_pdfjs := Ok tt;
     getDocument := fun _ => pdf;
     createWorker := Ok (worker_reading ocr);
     import_zai := Ok tt;
     ZAI_create := Ok {| chat_completions_create := fun _ => reply |};
     JSON_parse := fun _ => parsed |}.

Definition syntax_error : Thrown :=
  ErrorObject (lit "Unexpected token in JSON").

(** The service answers [{"engagementScore": "high"}]. *)
Definition world_high : Services :=
  world (Ok two_pages) (lit "scanned words on a page")
        (Ok (completion_of
               (Some (score_json (dquote ++ lit "high" ++ dquote)))))
        (Ok (VObj [ (lit "engagementScore", VStr (lit "high")) ])).

(** The service answers [{"engagementScore": 55.5}]. *)
Definition world_fraction : Services :=
  world (Ok two_pages) (lit "scanned words on a page")
        (Ok (completion_of (Some (score_json (lit "55.5")))))
        (Ok (VObj [ (lit "engagementScore", VNum (Fin (111 # 2))) ])).

(** The service answers [{"engagementScore": 150}]. *)
Definition world_150 : Services :=
  world (Ok two_pages) (lit "scanned words on a page")
        (Ok (completion_of (Some (score_json (lit "150")))))
        (Ok (VObj [ (lit "engagementScore", VNum (Fin 150)) ])).

(** The service answers [{"engagementScore": 0, "sentiment": ""}]. *)
Definition world_falsy : Services :=
  world (Ok two_pages) (lit "scanned words on a page")
        (Ok (completion_of
               (Some (lit "{" ++ dquote ++ lit "engagementScore" ++ dquote
                        ++ lit ": 0, " ++ dquote ++ lit "sentiment" ++ dquote
                        ++ lit ": " ++ dquote ++ dquote ++ lit "}"))))
        (Ok (VObj [ (lit "engagementScore", VNum (Fin 0));
                    (lit "sentiment", VStr []) ])).

(** The service is down. *)
Definition world_down : Services :=
  world (Ok two_pages) (lit "scanned words on a page")
        (Throw (ErrorObject (lit "fetch failed")))
        (Throw syntax_error).

(** The document is not a PDF; the page is blank for OCR. *)
Definition world_unreadable : Services :=
  world (Throw (ErrorObject (lit "Invalid PDF structure"))) (lit "  ")
        (Throw (ErrorObject (lit "fetch failed")))
        (Throw syntax_error).

Definition upload (file_name mime : string) (bytes : N) : File :=
  {| name := lit file_name; type := lit mime; size := bytes;
     arrayBuffer := Ok [] |}.

Definition request_with (f : File) : NextRequest :=
  {| formData := Ok [ (lit "file", EntryFile f) ] |}.

Definition empty_request : NextRequest := {| formData := Ok [] |}.

Definition pdf_file : File := upload "report.pdf" "application/pdf" 2048.
Definition png_file : File := upload "scan.png" "image/png" 4096.
Definition big_png : File := upload "big.png" "image/png" (12 * 1024 * 1024).
Definition docx_file : File := upload "notes.docx" "application/pdf" 2048.

(** A text of 1200 letters. *)
Definition long_text : jsstring := repeat 97%N 1200.

(** A scan of 2500 letters, read while the service is down. *)
Definition scan_2500 : jsstring := repeat 97%N 2500.

Definition world_scan : Services :=
  world (Ok two_pages) scan_2500 (Throw syntax_error) (Throw syntax_error).

End Samples.

Example POST_two_pages :
  result (POST Samples.world_150 (Samples.request_with Samples.pdf_file))
  = Ok (success_response Samples.pdf_file
          (lit "Hello world" ++ newline ++ lit "from page two")
          {| engagementScore := Fin 100;
             sentiment := VStr (lit "neutral");
             suggestions := default_suggestions;
             keyTopics := default_keyTopics |}).
Proof. vm_compute. reflexivity. Qed.

Example POST_big_png :
  result (POST Samples.world_150 (Samples.request_with Samples.big_png))
  = Ok too_large_response.
Proof. vm_compute. reflexivity. Qed.

Example POST_blank_png :
  result (POST Samples.world_unreadable (Samples.request_with Samples.png_file))
  = Ok no_text_response.
Proof. vm_compute. reflexivity. Qed.

Example trace_two_pages :
  trace (POST Samples.world_down (Samples.request_with Samples.pdf_file))
  = [ EvImport "pdfjs-dist/build/pdf"; EvGetDocument [];
      EvGetPage 1; EvGetTextContent 1; EvGetPage 2; EvGetTextContent 2;
      EvImport "z-ai-web-dev-sdk"; EvZaiCreate;
      EvChatCreate (chat_request (lit "Hello world" ++ newline ++ lit "from page two")) ].
Proof. vm_compute. reflexivity. Qed.

Example StringToNumber_55_5 :
  Js.StringToNumber (lit " 55.5 ") = Fin (555 # 10).
Proof. reflexivity. Qed.

Example StringToNumber_exp :
  Js.StringToNumber (lit "-1.5e3") = Fin (inject_Z (-1500)).
Proof. reflexivity. Qed.

Example StringToNumber_hex :
  Js.StringToNumber (lit "0x1F") = Fin (inject_Z 31).
Proof. reflexivity. Qed.

Example StringToNumber_word :
  Js.StringToNumber (lit "high") = NaN.
Proof. reflexivity. Qed.

Example StringToNumber_dot :
  Js.StringToNumber (lit ".") = NaN /\ Js.StringToNumber (lit "5.") = Fin (inject_Z 5)
  /\ Js.StringToNumber (lit "1e") = NaN /\ Js.StringToNumber (lit "") = Fin 0
  /\ Js.StringToNumber (lit "-Infinity") = Infinity true
  /\ Js.StringToNumber (lit "1,2") = NaN.
Proof. repeat split; reflexivity. Qed.

(** ** The order of the external calls *)

(** The calls of [extractTextFromImage], in the order of lines 42-50. *)
Definition ocr_script (buffer : Buffer) : list Event :=
  [ EvCreateWorker; EvLoadLanguage (lit "eng"); EvInitialize (lit "eng");
    EvRecognize buffer; EvTerminate ].

(** The calls of [extractTextFromPDF] on a document of [n] pages. *)
Definition pdf_script (buffer : Buffer) (n : nat) : list Event :=
  EvImport "pdfjs-dist/build/pdf" :: EvGetDocument buffer
    :: flat_map (fun i => [ EvGetPage i; EvGetTextContent i ]) (seq 1 n).

(** The calls of [analyzeContent], in the order of lines 65-100. *)
Definition analysis_script (text : jsstring) : list Event :=
  [ EvImport "z-ai-web-dev-sdk"; EvZaiCreate; EvChatCreate (chat_request text) ].

Definition is_chat_event (ev : Event) : bool :=
  match ev with
  | EvChatCreate _ => true
  | _ => false
  end.

(** [p] is the beginning of [l]. *)
Definition prefix_of {A : Type} (p l : list A) : Prop :=
  exists rest, l = p ++ rest.


(** ** The page (src/app/page.tsx) *)

Module Page.

Inductive Status := uploading | processing | completed | error.

(** The interface [FileUpload] of lines 14-27; the optional fields are
    absent until set.  Its field [error] is [error_text] here, [error]
    being one of the statuses. *)
Record FileUpload := {
  file : File;
  id : jsstring;
  status : Status;
  progress : N;
  extractedText : option jsstring;
  analysis : option Value;
  error_text : option jsstring
}.

(** [{ ...u, progress }] (lines 55-57 and 84-86) *)
Definition with_progress (p : N) (u : FileUpload) : FileUpload :=
  {| file := file u; id := id u; status := status u; progress := p;
     extractedText := extractedText u; analysis := analysis u;
     error_text := error_text u |}.

(** [{ ...u, status: 'processing', progress: 0 }] (lines 61-63) *)
Definition with_processing (u : FileUpload) : FileUpload :=
  {| file := file u; id := id u; status := processing; progress := 0;
     extractedText := extractedText u; analysis := analysis u;
     error_text := error_text u |}.

(** [error instanceof Error ? error.message : '...'] (line 109) *)
Definition message_of (e : Thrown) : jsstring :=
  match e with
  | ErrorObject msg => msg
  | NotAnError => lit "Failed to process file. Please try again."
  end.

(** [{ ...u, status: 'error', error: ... }] (lines 105-111) *)
Definition with_error (e : Thrown) (u : FileUpload) : FileUpload :=
  {| file := file u; id := id u; status := error; progress := progress u;
     extractedText := extractedText u; analysis := analysis u;
     error_text := Some (message_of e) |}.

(** The state changes [processFile] makes other than the final one on
    success. *)
Inductive Change :=
| SetProgress (p : N)
| StartProcessing
| Fail (e : Thrown).

Definition change (c : Change) : FileUpload -> FileUpload :=
  match c with
  | SetProgress p => with_progress p
  | StartProcessing => with_processing
  | Fail e => with_error e
  end.

(** The updater [prev => prev.map(u => u.id === upload.id ? ... : u)]
    handed to [setUploads]. *)
Definition update (target : jsstring) (c : Change)
           (prev : list FileUpload) : list FileUpload :=
  map (fun u => if JsString.eqb (id u) target then change c u else u) prev.

(** The updater of [removeUpload] (line 125). *)
Definition removeUpload (target : jsstring)
           (prev : list FileUpload) : list FileUpload :=
  filter (fun u => negb (JsString.eqb (id u) target)) prev.

(** [upload.file.type.includes('pdf')], the test that picks the icon
    (line 218). *)
Definition shows_pdf_icon (f : File) : bool := includes (type f) (lit "pdf").

(** The text of the preview paragraph (line 339): the first 200 characters
    and then three dots. *)
Definition snippet (extractedText : jsstring) : jsstring :=
  substring 0 200 extractedText ++ lit "...".

End Page.

(** ** More sample worlds *)

Module MoreSamples.

(** A worker whose recognition fails. *)
Definition failing_worker : Worker :=
  {| loadLanguage := fun _ => Ok tt;
     initialize := fun _ => Ok tt;
     recognize := fun _ => Throw (ErrorObject (lit "Error attempting to read image."));
     terminate := Ok tt |}.

Definition world_ocr_fails : Services :=
  {| import_pdfjs := Ok tt;
     getDocument := fun _ => Ok Samples.two_pages;
     createWorker := Ok failing_worker;
     import_zai := Ok tt;
     ZAI_create := Ok {| chat_completions_create :=
                           fun _ => Throw (ErrorObject (lit "fetch failed")) |};
     JSON_parse := fun _ => Throw Samples.syntax_error |}.

(** A document without pages. *)
Definition no_pages : PDFDocumentProxy :=
  {| numPages := 0;
     getPage := fun _ => Throw (ErrorObject (lit "Invalid page request")) |}.

(** A document whose second page cannot be read. *)
Definition broken_second_page : PDFDocumentProxy :=
  {| numPages := 2;
     getPage := fun i =>
       match i with
       | 1%nat => Ok (Samples.page_of ["Hello"; "world"]%string)
       | _ => Throw (ErrorObject (lit "Invalid page request"))
       end |}.

Definition world_with_pdf (pdf : PDFDocumentProxy) : Services :=
  Samples.world (Ok pdf) (lit "scanned words on a page")
                (Throw (ErrorObject (lit "fetch failed")))
                (Throw Samples.syntax_error).

(** The service answers [null]. *)
Definition world_null : Services :=
  Samples.world (Ok Samples.two_pages) (lit "scanned words on a page")
                (Ok (Samples.completion_of (Some (lit "null"))))
                (Ok VNull).

(** The service answers
    [{"engagementScore": -5, "sentiment": "angry"}]. *)
Definition world_angry : Services :=
  Samples.world (Ok Samples.two_pages) (lit "scanned words on a page")
                (Ok (Samples.completion_of
                       (Some (lit "{" ++ dquote ++ lit "engagementScore" ++ dquote
                                ++ lit ": -5, " ++ dquote ++ lit "sentiment" ++ dquote
                                ++ lit ": " ++ dquote ++ lit "angry" ++ dquote
                                ++ lit "}"))))
                (Ok (VObj [ (lit "engagementScore", VNum (Fin (-5)));
                            (lit "sentiment", VStr (lit "angry")) ])).



Definition card (ident : string) (st : Page.Status) (p : N) : Page.FileUpload :=
  {| Page.file := Samples.pdf_file; Page.id := lit ident; Page.status := st;
     Page.progress := p; Page.extractedText := None; Page.analysis := None;
     Page.error_text := None |}.

End MoreSamples.

(** * Properties *)

Unset Implicit Arguments.

(** ** Strings *)

Section StringFacts.

Lemma char_eqb_eq (a b : char16) : char_eqb a b = true <-> a = b.
Proof. unfold char_eqb. apply N.eqb_eq. Qed.

Lemma eqb_eq (s t : jsstring) : JsString.eqb s t = true <-> s = t.
Proof.
  revert t; induction s as [|a s IH]; intros [|b t]; simpl;
    try (split; [discriminate | discriminate]); try tauto.
  rewrite andb_true_iff, char_eqb_eq, IH.
  split; [intros [-> ->]; reflexivity | intros H; inversion H; auto].
Qed.

Lemma eqb_refl (s : jsstring) : JsString.eqb s s = true.
Proof. apply eqb_eq; reflexivity. Qed.

Lemma eqb_neq (s t : jsstring) : JsString.eqb s t = false <-> s <> t.
Proof.
  rewrite <- eqb_eq. destruct (JsString.eqb s t); split; congruence.
Qed.

Lemma array_includes_In (l : list jsstring) (t : jsstring) :
  array_includes l t = true <-> In t l.
Proof.
  unfold array_includes. rewrite existsb_exists. split.
  - intros (x & Hin & Heq). apply eqb_eq in Heq. subst; assumption.
  - intros Hin. exists t. split; [assumption | apply eqb_refl].
Qed.

(** [drop_ws] only removes a whitespace prefix. *)
Lemma drop_ws_split (s : jsstring) :
  exists w, s = w ++ drop_ws s /\ forallb is_ws w = true.
Proof.
  induction s as [|c s (w & Hs & Hw)]; simpl.
  - exists []; auto.
  - destruct (is_ws c) eqn:Hc.
    + exists (c :: w); simpl. rewrite Hc, Hw. split; [congruence | reflexivity].
    + exists []; auto.
Qed.

Lemma drop_ws_clean (s : jsstring) : starts_clean (drop_ws s).
Proof.
  induction s as [|c s IH]; simpl; [exact I|].
  destruct (is_ws c) eqn:Hc; [assumption | simpl; assumption].
Qed.

Lemma drop_ws_id (s : jsstring) : starts_clean s -> drop_ws s = s.
Proof. destruct s as [|c s]; simpl; [reflexivity | intros ->; reflexivity]. Qed.

Lemma drop_ws_all (w r : jsstring) :
  forallb is_ws w = true -> drop_ws (w ++ r) = drop_ws r.
Proof.
  induction w as [|c w IH]; simpl; [reflexivity|].
  rewrite andb_true_iff. intros [-> Hw]. auto.
Qed.

Lemma drop_ws_app (s w : jsstring) :
  forallb is_ws w = true ->
  drop_ws (s ++ w) = drop_ws s ++ w \/ (drop_ws s = [] /\ drop_ws (s ++ w) = []).
Proof.
  intros Hw. induction s as [|c s IH]; simpl.
  - right. split; [reflexivity|].
    rewrite <- (app_nil_r w). rewrite drop_ws_all by assumption. reflexivity.
  - destruct (is_ws c); [assumption | left; reflexivity].
Qed.

Lemma starts_clean_prefix (p q : jsstring) :
  starts_clean (p ++ q) -> starts_clean p.
Proof. destruct p; simpl; auto. Qed.

Lemma forallb_rev (w : jsstring) :
  forallb is_ws w = true -> forallb is_ws (rev w) = true.
Proof.
  rewrite !forallb_forall. intros H x Hx. apply H. apply in_rev. assumption.
Qed.

(** Whitespace appended at the end does not survive [trim]. *)
Lemma trim_app_ws (s w : jsstring) :
  forallb is_ws w = true -> trim (s ++ w) = trim s.
Proof.
  intros Hw. unfold trim.
  destruct (drop_ws_app s w Hw) as [-> | [Hs ->]].
  - rewrite rev_app_distr, drop_ws_all by (apply forallb_rev; assumption).
    reflexivity.
  - rewrite Hs. reflexivity.
Qed.

Lemma trim_idempotent (s : jsstring) : trim (trim s) = trim s.
Proof.
  unfold trim.
  set (a := drop_ws s).
  set (b := drop_ws (rev a)).
  assert (Hclean : starts_clean (rev b)).
  { destruct (drop_ws_split (rev a)) as (w & Hsplit & _). fold b in Hsplit.
    assert (Ha : a = rev b ++ rev w).
    { rewrite <- (rev_involutive a), Hsplit, rev_app_distr. reflexivity. }
    apply starts_clean_prefix with (q := rev w).
    rewrite <- Ha. apply drop_ws_clean. }
  rewrite (drop_ws_id _ Hclean), rev_involutive.
  rewrite (drop_ws_id b); [reflexivity | apply drop_ws_clean].
Qed.

Lemma substring_0 (n : nat) (s : jsstring) : substring 0 n s = firstn n s.
Proof.
  unfold substring. rewrite Nat.min_0_l, Nat.max_0_l, Nat.sub_0_r. reflexivity.
Qed.

Lemma substring_0_length (n : nat) (s : jsstring) :
  (List.length (substring 0 n s) <= n)%nat.
Proof. rewrite substring_0. apply firstn_le_length. Qed.

Lemma substring_0_all (n : nat) (s : jsstring) :
  (List.length s <= n)%nat -> substring 0 n s = s.
Proof. intros H. rewrite substring_0. apply firstn_all2. assumption. Qed.

End StringFacts.

(** ** The monad *)

Section MonadFacts.

Context {A B : Type}.

Lemma result_bind (m : M A) (k : A -> M B) :
  result (bind m k) =
  match result m with
  | Ok a => result (k a)
  | Throw e => Throw e
  end.
Proof.
  destruct m as [t [a|e]]; simpl; [|reflexivity].
  destruct (k a); reflexivity.
Qed.

Lemma trace_bind (m : M A) (k : A -> M B) :
  trace (bind m k) =
  trace m ++ match result m with
             | Ok a => trace (k a)
             | Throw _ => []
             end.
Proof.
  destruct m as [t [a|e]]; simpl.
  - destruct (k a); reflexivity.
  - rewrite app_nil_r. reflexivity.
Qed.

Lemma result_try_catch (m : M A) (h : Thrown -> M A) :
  result (try_catch m h) =
  match result m with
  | Ok a => Ok a
  | Throw e => result (h e)
  end.
Proof.
  destruct m as [t [a|e]]; simpl; [reflexivity|].
  destruct (h e); reflexivity.
Qed.

Lemma trace_try_catch (m : M A) (h : Thrown -> M A) :
  trace (try_catch m h) =
  trace m ++ match result m with
             | Ok _ => []
             | Throw e => trace (h e)
             end.
Proof.
  destruct m as [t [a|e]]; simpl.
  - rewrite app_nil_r. reflexivity.
  - destruct (h e); reflexivity.
Qed.

Lemma result_call (ev : Event) (r : Outcome A) : result (call ev r) = r.
Proof. reflexivity. Qed.

Lemma result_lift (r : Outcome A) : result (lift r) = r.
Proof. reflexivity. Qed.

Lemma result_ret (a : A) : result (ret a) = Ok a.
Proof. reflexivity. Qed.

End MonadFacts.

(** One step of symbolic execution of a block of the route. *)
Ltac run :=
  repeat (first [ rewrite result_try_catch | rewrite result_bind
                | rewrite result_call | rewrite result_lift
                | rewrite result_ret ];
          cbv beta iota).

Tactic Notation "run" "in" hyp(H) :=
  repeat (first [ rewrite result_try_catch in H | rewrite result_bind in H
                | rewrite result_call in H | rewrite result_lift in H
                | rewrite result_ret in H ];
          cbv beta iota in H).

(** ** PDF extraction *)

Section PdfFacts.

Lemma pdf_pages_ok (pdf : PDFDocumentProxy) (ns : list nat) :
  forall (pages : list (list jsstring)) (acc : jsstring),
    map (page_items pdf) ns = map Ok pages ->
    result (pdf_pages pdf ns acc) = Ok (acc ++ List.concat (map page_line pages)).
Proof.
  induction ns as [|i ns IH]; intros [|p pages] acc Hmap;
    simpl in Hmap; try discriminate.
  - simpl. rewrite app_nil_r. reflexivity.
  - injection Hmap as Hp Hrest.
    unfold page_items in Hp.
    cbn [pdf_pages]. rewrite !result_bind, !result_call.
    destruct (getPage pdf i) as [page|]; [|discriminate].
    rewrite !result_bind, !result_call.
    destruct (getTextContent page) as [tc|]; [|discriminate].
    injection Hp as <-.
    rewrite (IH pages _ Hrest). cbn [map List.concat]. unfold page_line.
    rewrite <- !app_assoc. reflexivity.
Qed.

Lemma pdf_pages_inv (pdf : PDFDocumentProxy) (ns : list nat) :
  forall (acc text : jsstring),
    result (pdf_pages pdf ns acc) = Ok text ->
    exists pages,
      map (page_items pdf) ns = map Ok pages /\
      text = acc ++ List.concat (map page_line pages).
Proof.
  induction ns as [|i ns IH]; intros acc text Hres.
  - exists []. simpl in Hres. injection Hres as <-.
    simpl. rewrite app_nil_r. auto.
  - cbn [pdf_pages] in Hres. rewrite !result_bind, !result_call in Hres.
    destruct (getPage pdf i) as [page|] eqn:Hpage; [|discriminate].
    rewrite !result_bind, !result_call in Hres.
    destruct (getTextContent page) as [tc|] eqn:Htc; [|discriminate].
    destruct (IH _ _ Hres) as (pages & Hmap & ->).
    exists (map str (items tc) :: pages). split.
    + cbn [map]. unfold page_items at 1. rewrite Hpage, Htc, Hmap. reflexivity.
    + cbn [map List.concat]. unfold page_line at 2.
      rewrite <- !app_assoc. reflexivity.
Qed.

(** Ending every line with a newline is joining the lines with newlines
    and adding one more. *)
Lemma concat_lines (ls : list jsstring) :
  List.concat (map (fun l => l ++ newline) ls) =
  join newline ls ++ match ls with [] => [] | _ => newline end.
Proof.
  induction ls as [|l [|l' ls] IH].
  - reflexivity.
  - simpl. rewrite app_nil_r. reflexivity.
  - change (List.concat (map (fun l => l ++ newline) (l :: l' :: ls)))
      with ((l ++ newline) ++ List.concat (map (fun l => l ++ newline) (l' :: ls))).
    rewrite IH.
    change (join newline (l :: l' :: ls))
      with (l ++ newline ++ join newline (l' :: ls)).
    rewrite <- !app_assoc. reflexivity.
Qed.

Lemma trim_page_lines (pages : list (list jsstring)) :
  trim (List.concat (map page_line pages)) = Spec.pdf_text pages.
Proof.
  unfold Spec.pdf_text, page_line.
  rewrite <- (map_map (join space) (fun l => l ++ newline)).
  rewrite concat_lines.
  apply trim_app_ws.
  destruct (map (join space) pages); reflexivity.
Qed.

(** Whenever the import, the load and every page read succeed, the
    extractor returns, and returns the text of the specification. *)
Lemma extractTextFromPDF_returns (svc : Services) (buffer : Buffer)
      (u : unit) (pdf : PDFDocumentProxy) (pages : list (list jsstring)) :
  import_pdfjs svc = Ok u ->
  getDocument svc buffer = Ok pdf ->
  map (page_items pdf) (seq 1 (numPages pdf)) = map Ok pages ->
  result (extractTextFromPDF svc buffer) = Ok (Spec.pdf_text pages).
Proof.
  intros Himp Hdoc Hpages. unfold extractTextFromPDF.
  run. rewrite Himp. run. rewrite Hdoc. run.
  rewrite (pdf_pages_ok pdf _ pages [] Hpages). run.
  cbn [app]. rewrite trim_page_lines. reflexivity.
Qed.

Lemma extractTextFromPDF_inv (svc : Services) (buffer : Buffer) (text : jsstring) :
  result (extractTextFromPDF svc buffer) = Ok text ->
  exists u pdf pages,
    import_pdfjs svc = Ok u /\
    getDocument svc buffer = Ok pdf /\
    map (page_items pdf) (seq 1 (numPages pdf)) = map Ok pages /\
    text = Spec.pdf_text pages.
Proof.
  unfold extractTextFromPDF. intros Hres. run in Hres.
  destruct (import_pdfjs svc) as [u|] eqn:Himp; [|discriminate].
  run in Hres.
  destruct (getDocument svc buffer) as [pdf|] eqn:Hdoc; [|discriminate].
  run in Hres.
  destruct (result (pdf_pages pdf (seq 1 (numPages pdf)) [])) as [t|] eqn:Hloop;
    [|discriminate].
  run in Hres. injection Hres as <-.
  destruct (pdf_pages_inv _ _ _ _ Hloop) as (pages & Hmap & ->).
  exists u, pdf, pages. cbn [app]. rewrite trim_page_lines. auto.
Qed.

End PdfFacts.

(** ** Analysis *)

Section AnalysisFacts.

Variable svc : Services.

(** Reading a property of a parsed value either throws for every key or
    for none. *)
Lemma get_throws_uniform (analysis : Value) (k k' : jsstring) (e : Thrown) :
  Js.get analysis k = Throw e -> Js.get analysis k' = Throw e.
Proof. destruct analysis; simpl; congruence. Qed.

Lemma build_analysis_result (analysis : Value) :
  result (build_analysis analysis) =
  match Js.get analysis (lit "engagementScore"),
        Js.get analysis (lit "sentiment"),
        Js.get analysis (lit "suggestions"),
        Js.get analysis (lit "keyTopics") with
  | Ok v, Ok s, Ok g, Ok t =>
      match clamp_score v with
      | Ok score =>
          Ok {| engagementScore := score;
                sentiment := Js.or_else s (VStr (lit "neutral"));
                suggestions := Js.or_else g default_suggestions;
                keyTopics := Js.or_else t default_keyTopics |}
      | Throw e => Throw e
      end
  | Throw e, _, _, _ => Throw e
  | _, Throw e, _, _ => Throw e
  | _, _, Throw e, _ => Throw e
  | _, _, _, Throw e => Throw e
  end.
Proof.
  unfold build_analysis, clamp_score. run.
  destruct (Js.get analysis (lit "engagementScore")) as [v|e] eqn:Hv;
    [|reflexivity].
  run.
  destruct (Js.Math_max (VNum (Fin 0)) (Js.or_else v (VNum (Fin 75))))
    as [lower|e]; run.
  - destruct (Js.Math_min (VNum (Fin 100)) (VNum lower)) as [score|e]; run.
    + destruct (Js.get analysis (lit "sentiment")) as [s|e]; run; [|reflexivity].
      destruct (Js.get analysis (lit "suggestions")) as [g|e]; run; [|reflexivity].
      destruct (Js.get analysis (lit "keyTopics")) as [t|e]; run; reflexivity.
    + destruct analysis; try discriminate; reflexivity.
  - destruct analysis; try discriminate; reflexivity.
Qed.

Variable text : jsstring.

Lemma analyzeContent_replies (analysis : Value) :
  replies svc text analysis ->
  result (analyzeContent svc text) =
  Ok match result (build_analysis analysis) with
     | Ok a => a
     | Throw _ => fallback_analysis
     end.
Proof.
  intros (u & zai & completion & c & cs & Himp & Hzai & Hchat & Hcontent & Hparse).
  unfold analyzeContent. run. rewrite Himp. run. rewrite Hzai. run.
  rewrite Hchat. run. rewrite Hcontent. run. rewrite Hparse. run.
  destruct (result (build_analysis analysis)); reflexivity.
Qed.

Lemma analyzeContent_fails :
  analysis_fails svc text ->
  result (analyzeContent svc text) = Ok fallback_analysis.
Proof.
  unfold analyzeContent.
  intros [e He | u e Hu He | u zai e Hu Hz He
         | u zai completion Hu Hz Hc [Hn | Hn]
         | u zai completion c cs e Hu Hz Hc Hn He]; run;
    repeat (first [ rewrite He | rewrite Hu | rewrite Hz
                  | rewrite Hc | rewrite Hn ]; run);
    reflexivity.
Qed.

Lemma replies_or_fails :
  (exists analysis, replies svc text analysis) \/ analysis_fails svc text.
Proof.
  destruct (import_zai svc) as [u|e] eqn:Hu;
    [|right; eapply import_throws; eassumption].
  destruct (ZAI_create svc) as [zai|e] eqn:Hz;
    [|right; eapply create_throws; eassumption].
  destruct (chat_completions_create zai (chat_request text))
    as [completion|e] eqn:Hc;
    [|right; eapply call_throws; eassumption].
  destruct (response_content completion) as [[|c cs]|] eqn:Hn;
    [right; eapply empty_content; eauto
    | | right; eapply empty_content; eauto].
  destruct (JSON_parse svc (c :: cs)) as [analysis|e] eqn:Hp;
    [|right; eapply unparseable; eassumption].
  left. exists analysis, u, zai, completion, c, cs. auto.
Qed.

Lemma replies_functional (a1 a2 : Value) :
  replies svc text a1 -> replies svc text a2 -> a1 = a2.
Proof.
  intros (u & zai & completion & c & cs & Hu & Hz & Hc & Hn & Hp)
         (u' & zai' & completion' & c' & cs' & Hu' & Hz' & Hc' & Hn' & Hp').
  congruence.
Qed.

(** [analyzeContent] never throws. *)
Lemma analyzeContent_total :
  exists a, result (analyzeContent svc text) = Ok a.
Proof.
  destruct replies_or_fails as [(analysis & Hr) | Hf].
  - rewrite (analyzeContent_replies _ Hr). eauto.
  - rewrite (analyzeContent_fails Hf). eauto.
Qed.

End AnalysisFacts.

(** ** The clamp of the engagement score *)

Section ClampFacts.

Lemma Qle_bool_false (x y : Q) : Qle_bool x y = false -> y <= x.
Proof.
  intros H. apply Qlt_le_weak, Qnot_le_lt. intros Hle.
  apply Qle_bool_iff in Hle. congruence.
Qed.

Lemma clamp_fin (q : Q) :
  Qeq_bool q 0 = false ->
  exists r, clamp_score (VNum (Fin q)) = Ok (Fin r) /\ 0 <= r /\ r <= 100 /\
            (r = q \/ r = 0 \/ r = 100).
Proof.
  intros Hq. unfold clamp_score, Js.or_else, Js.ToBoolean. rewrite Hq.
  cbn [negb Js.Math_max Js.ToNumber Js.to_string_throws Js.to_number
       Js.max_num Js.num_leb].
  destruct (Qle_bool 0 q) eqn:H0;
    cbn [Js.Math_min Js.ToNumber Js.to_string_throws Js.to_number
         Js.min_num Js.num_leb].
  - destruct (Qle_bool 100 q) eqn:H100.
    + exists 100. repeat split; auto; discriminate.
    + exists q. repeat split; auto.
      * apply Qle_bool_iff; assumption.
      * apply Qle_bool_false; assumption.
  - exists 0. repeat split; auto; discriminate.
Qed.

Lemma clamp_number_like (v : Value) :
  number_like v = true ->
  exists r, clamp_score v = Ok (Fin r) /\ 0 <= r /\ r <= 100 /\
            (whole v -> exists z, r == inject_Z z).
Proof.
  destruct v as [| |b|[|neg|q]|s|l|props]; simpl; try discriminate; intros _.
  - exists 75. repeat split; try discriminate. exists 75%Z. reflexivity.
  - exists 75. repeat split; try discriminate. exists 75%Z. reflexivity.
  - destruct b.
    + exists 1. repeat split; try discriminate. exists 1%Z. reflexivity.
    + exists 75. repeat split; try discriminate. exists 75%Z. reflexivity.
  - exists 75. repeat split; try discriminate. exists 75%Z. reflexivity.
  - destruct neg.
    + exists 0. repeat split; try discriminate. exists 0%Z. reflexivity.
    + exists 100. repeat split; try discriminate. exists 100%Z. reflexivity.
  - destruct (Qeq_bool q 0) eqn:Hq.
    + exists 75. unfold clamp_score, Js.or_else, Js.ToBoolean. rewrite Hq.
      repeat split; try discriminate. exists 75%Z. reflexivity.
    + destruct (clamp_fin q Hq) as (r & Hr & H0 & H100 & Hcase).
      exists r. repeat split; auto.
      intros [z Hz]. destruct Hcase as [-> | [-> | ->]].
      * exists z; assumption.
      * exists 0%Z; reflexivity.
      * exists 100%Z; reflexivity.
Qed.

(** A falsy reading is replaced by 75. *)
Lemma clamp_falsy (v : Value) :
  Js.ToBoolean v = false -> clamp_score v = Ok (Fin 75).
Proof.
  intros Hv. unfold clamp_score, Js.or_else. rewrite Hv. reflexivity.
Qed.

End ClampFacts.

(** ** Claims about [analyzeContent] *)

Section AnalysisClaims.

Lemma get_ok_uniform (analysis : Value) (k k' : jsstring) (v : Value) :
  Js.get analysis k = Ok v -> exists v', Js.get analysis k' = Ok v'.
Proof. destruct analysis; simpl; try discriminate; eauto. Qed.

(** What [analyzeContent] returns once the service has replied. *)
Lemma analyzeContent_reply_cases (svc : Services) (text : jsstring)
      (analysis : Value) :
  replies svc text analysis ->
  result (analyzeContent svc text) = Ok fallback_analysis \/
  exists v s g t score,
    Js.get analysis (lit "engagementScore") = Ok v /\
    Js.get analysis (lit "sentiment") = Ok s /\
    Js.get analysis (lit "suggestions") = Ok g /\
    Js.get analysis (lit "keyTopics") = Ok t /\
    clamp_score v = Ok score /\
    result (analyzeContent svc text) =
    Ok {| engagementScore := score;
          sentiment := Js.or_else s (VStr (lit "neutral"));
          suggestions := Js.or_else g default_suggestions;
          keyTopics := Js.or_else t default_keyTopics |}.
Proof.
  intros Hr. rewrite (analyzeContent_replies _ _ _ Hr), build_analysis_result.
  destruct (Js.get analysis (lit "engagementScore")) as [v|e]; [|left; reflexivity].
  destruct (Js.get analysis (lit "sentiment")) as [s|e]; [|left; reflexivity].
  destruct (Js.get analysis (lit "suggestions")) as [g|e]; [|left; reflexivity].
  destruct (Js.get analysis (lit "keyTopics")) as [t|e]; [|left; reflexivity].
  destruct (clamp_score v) as [score|e] eqn:Hc; [|left; reflexivity].
  right. exists v, s, g, t, score. auto 10.
Qed.

Lemma fallback_in_range : in_range (engagementScore fallback_analysis).
Proof. exists 75. repeat split; discriminate. Qed.

Lemma fallback_is_integer : is_integer (engagementScore fallback_analysis).
Proof. exists 75, 75%Z. split; reflexivity. Qed.

End AnalysisClaims.

(** C1, as amended.  Whenever the value the remote service returns for
    engagementScore is a number of any size (NaN and the infinities
    included), a boolean, null, or missing, [analyzeContent] returns an
    AnalysisResult whose engagementScore is a number in [0,100]; the score
    is moreover an integer unless the returned value is a fraction. *)
Theorem engagementScore_clamped_for_numbers (svc : Services) (text : jsstring) :
  (forall analysis v,
      replies svc text analysis ->
      Js.get analysis (lit "engagementScore") = Ok v ->
      number_like v = true) ->
  exists a,
    result (analyzeContent svc text) = Ok a /\
    in_range (engagementScore a) /\
    ((forall analysis v,
         replies svc text analysis ->
         Js.get analysis (lit "engagementScore") = Ok v ->
         whole v) ->
     is_integer (engagementScore a)).
Proof.
  intros Hnum.
  destruct (replies_or_fails svc text) as [(analysis & Hr) | Hf].
  - destruct (analyzeContent_reply_cases _ _ _ Hr)
      as [-> | (v & s & g & t & score & Hv & _ & _ & _ & Hc & ->)].
    + eexists; split; [reflexivity|].
      split; [apply fallback_in_range | intros _; apply fallback_is_integer].
    + destruct (clamp_number_like v (Hnum _ _ Hr Hv))
        as (r & Hclamp & H0 & H100 & Hwhole).
      rewrite Hclamp in Hc. injection Hc as <-.
      eexists; split; [reflexivity|]. cbn [engagementScore]. split.
      * exists r. auto.
      * intros Hw. destruct (Hwhole (Hw _ _ Hr Hv)) as [z Hz].
        exists r, z. auto.
  - rewrite (analyzeContent_fails _ _ Hf).
    eexists; split; [reflexivity|].
    split; [apply fallback_in_range | intros _; apply fallback_is_integer].
Qed.

(** The service answers 150: the score returned is 100. *)
Lemma engagementScore_clamped_for_numbers_witness :
  exists a,
    result (analyzeContent Samples.world_150 (lit "Hello world")) = Ok a /\
    in_range (engagementScore a) /\
    ((forall analysis v,
         replies Samples.world_150 (lit "Hello world") analysis ->
         Js.get analysis (lit "engagementScore") = Ok v ->
         whole v) ->
     is_integer (engagementScore a)).
Proof.
  apply (engagementScore_clamped_for_numbers Samples.world_150 (lit "Hello world")).
  intros analysis v (u & zai & completion & c & cs & _ & _ & _ & _ & Hp) Hv.
  simpl in Hp. injection Hp as <-.
  vm_compute in Hv. injection Hv as <-. reflexivity.
Defined.

(** C1, as stated, fails, in two ways.  When the service answers
    [{"engagementScore": 55.5}] no step rounds: the score returned is 55.5,
    in range but no integer.  When it answers
    [{"engagementScore": "high"}] the string is truthy, so it reaches
    [Math.max], which converts it to NaN, and [Math.min] keeps NaN: the
    score returned is no number in [0,100] at all. *)
Lemma engagementScore_not_always_integer_in_range :
  (result (analyzeContent Samples.world_fraction (lit "Hello world"))
   = Ok {| engagementScore := Fin (111 # 2);
           sentiment := VStr (lit "neutral");
           suggestions := default_suggestions;
           keyTopics := default_keyTopics |}
   /\ ~ integer_in_range (Fin (111 # 2)))
  /\
  (result (analyzeContent Samples.world_high (lit "Hello world"))
   = Ok {| engagementScore := NaN;
           sentiment := VStr (lit "neutral");
           suggestions := default_suggestions;
           keyTopics := default_keyTopics |}
   /\ ~ integer_in_range NaN).
Proof.
  split; (split; [vm_compute; reflexivity|]).
  - intros [_ (q & z & Hq & Hz)]. injection Hq as <-.
    unfold Qeq in Hz. simpl in Hz. lia.
  - intros [(q & Hq & _) _]. discriminate.
Qed.

(** C10.  When the reply parses to an object, an engagementScore of 0 is
    replaced by 75 and an empty sentiment by "neutral", the very values a
    missing engagementScore or sentiment gets. *)
Theorem falsy_fields_take_defaults (svc : Services) (text : jsstring)
        (props : list (jsstring * Value)) :
  replies svc text (VObj props) ->
  exists a,
    result (analyzeContent svc text) = Ok a /\
    (forall q, Js.assoc (lit "engagementScore") props = Some (VNum (Fin q)) ->
               q == 0 -> engagementScore a = Fin 75) /\
    (Js.assoc (lit "engagementScore") props = None ->
     engagementScore a = Fin 75) /\
    (Js.assoc (lit "sentiment") props = Some (VStr []) ->
     sentiment a = VStr (lit "neutral")) /\
    (Js.assoc (lit "sentiment") props = None ->
     sentiment a = VStr (lit "neutral")).
Proof.
  intros Hr.
  destruct (analyzeContent_reply_cases _ _ _ Hr)
    as [-> | (v & s & g & t & score & Hv & Hs & _ & _ & Hc & ->)].
  - eexists; split; [reflexivity|]. repeat split; reflexivity.
  - eexists; split; [reflexivity|].
    cbn [engagementScore sentiment]. cbn [Js.get] in Hv, Hs.
    injection Hv as <-. injection Hs as <-.
    split; [|split; [|split]].
    + intros q Hq Hz. rewrite Hq in Hc.
      rewrite clamp_falsy in Hc; [congruence|].
      cbn [Js.ToBoolean]. apply Qeq_bool_iff in Hz. rewrite Hz. reflexivity.
    + intros Hq. rewrite Hq in Hc. rewrite clamp_falsy in Hc by reflexivity.
      congruence.
    + intros ->. reflexivity.
    + intros ->. reflexivity.
Qed.

(** The service answers [{"engagementScore": 0, "sentiment": ""}]. *)
Lemma falsy_fields_take_defaults_witness :
  exists a,
    result (analyzeContent Samples.world_falsy (lit "Hello world")) = Ok a /\
    engagementScore a = Fin 75 /\
    sentiment a = VStr (lit "neutral").
Proof.
  destruct (falsy_fields_take_defaults Samples.world_falsy (lit "Hello world")
              [ (lit "engagementScore", VNum (Fin 0)); (lit "sentiment", VStr []) ])
    as (a & Ha & Hscore & _ & Hsent & _).
  - exists tt. eexists. eexists. eexists. eexists.
    repeat split; reflexivity.
  - exists a. split; [exact Ha|]. split.
    + apply (Hscore 0); reflexivity.
    + apply Hsent. reflexivity.
Defined.

(** ** Extraction *)

Section ExtractFacts.

Variable svc : Services.

Lemma extractTextFromImage_inv (buffer : Buffer) (text : jsstring) :
  result (extractTextFromImage svc buffer) = Ok text ->
  exists raw, text = trim raw.
Proof.
  unfold extractTextFromImage. intros H. run in H.
  destruct (createWorker svc) as [worker|]; run in H; [|discriminate].
  destruct (loadLanguage worker (lit "eng")); run in H; [|discriminate].
  destruct (initialize worker (lit "eng")); run in H; [|discriminate].
  destruct (recognize worker buffer) as [raw|]; run in H; [|discriminate].
  destruct (terminate worker); run in H; [|discriminate].
  injection H as <-. eauto.
Qed.

Lemma extractTextFromPDF_throws (buffer : Buffer) (e : Thrown) :
  result (extractTextFromPDF svc buffer) = Throw e ->
  e = ErrorObject (lit "Failed to extract text from PDF").
Proof.
  unfold extractTextFromPDF. rewrite result_try_catch.
  match goal with |- context [result ?m] => destruct (result m) end;
    [discriminate|].
  cbv beta iota. unfold throw, result, snd. congruence.
Qed.

Lemma extractTextFromImage_throws (buffer : Buffer) (e : Thrown) :
  result (extractTextFromImage svc buffer) = Throw e ->
  e = ErrorObject (lit "Failed to extract text from image").
Proof.
  unfold extractTextFromImage. rewrite result_try_catch.
  match goal with |- context [result ?m] => destruct (result m) end;
    [discriminate|].
  cbv beta iota. unfold throw, result, snd. congruence.
Qed.

(** Both extractors return their text trimmed, so the second [trim] of
    line 194 changes nothing. *)
Lemma extract_text_trimmed (file : File) (buffer : Buffer) (text : jsstring) :
  result (extract_text svc file buffer) = Ok text -> trim text = text.
Proof.
  unfold extract_text.
  destruct (JsString.eqb (type file) (lit "application/pdf")); intros H.
  - destruct (extractTextFromPDF_inv _ _ _ H) as (_ & _ & pages & _ & _ & _ & ->).
    apply trim_idempotent.
  - destruct (extractTextFromImage_inv _ _ H) as (raw & ->).
    apply trim_idempotent.
Qed.

(** *** Which services each extractor talks to *)

Lemma trace_pdf_pages (pdf : PDFDocumentProxy) (ns : list nat) :
  forall acc, Forall (fun ev => is_pdf_event ev = true) (trace (pdf_pages pdf ns acc)).
Proof.
  induction ns as [|i ns IH]; intros acc; cbn [pdf_pages].
  - constructor.
  - rewrite trace_bind. apply Forall_app. split; [repeat constructor|].
    rewrite result_call. destruct (getPage pdf i) as [page|]; [|constructor].
    rewrite trace_bind. apply Forall_app. split; [repeat constructor|].
    rewrite result_call. destruct (getTextContent page); [apply IH | constructor].
Qed.

Lemma trace_extractTextFromPDF (buffer : Buffer) :
  Forall (fun ev => is_pdf_event ev = true) (trace (extractTextFromPDF svc buffer)).
Proof.
  unfold extractTextFromPDF. rewrite trace_try_catch.
  apply Forall_app. split.
  - rewrite trace_bind. apply Forall_app. split; [repeat constructor|].
    rewrite result_call. destruct (import_pdfjs svc); [|constructor].
    rewrite trace_bind. apply Forall_app. split; [repeat constructor|].
    rewrite result_call. destruct (getDocument svc buffer) as [pdf|]; [|constructor].
    rewrite trace_bind. apply Forall_app. split; [apply trace_pdf_pages|].
    destruct (result _); constructor.
  - destruct (result _); constructor.
Qed.

Lemma trace_extractTextFromImage (buffer : Buffer) :
  Forall (fun ev => is_ocr_event ev = true) (trace (extractTextFromImage svc buffer)).
Proof.
  unfold extractTextFromImage. rewrite trace_try_catch.
  apply Forall_app. split; [|destruct (result _); constructor].
  rewrite trace_bind. apply Forall_app. split; [repeat constructor|].
  rewrite result_call. destruct (createWorker svc) as [worker|]; [|constructor].
  rewrite trace_bind. apply Forall_app. split; [repeat constructor|].
  rewrite result_call. destruct (loadLanguage worker _); [|constructor].
  rewrite trace_bind. apply Forall_app. split; [repeat constructor|].
  rewrite result_call. destruct (initialize worker _); [|constructor].
  rewrite trace_bind. apply Forall_app. split; [repeat constructor|].
  rewrite result_call. destruct (recognize worker buffer); [|constructor].
  rewrite trace_bind. apply Forall_app. split; [repeat constructor|].
  rewrite result_call. destruct (terminate worker); constructor.
Qed.

Lemma trace_extract_text (file : File) (buffer : Buffer) :
  Forall (fun ev => is_analysis_event ev = false)
         (trace (extract_text svc file buffer)).
Proof.
  unfold extract_text.
  destruct (JsString.eqb (type file) (lit "application/pdf")).
  - eapply Forall_impl; [|apply trace_extractTextFromPDF].
    intros [m| | | | | | | | | |]; simpl; try discriminate; try reflexivity.
    intros Hm. apply String.eqb_eq in Hm. subst m. reflexivity.
  - eapply Forall_impl; [|apply trace_extractTextFromImage].
    intros [m| | | | | | | | | |]; simpl; try discriminate; reflexivity.
Qed.

(** The only chat request [analyzeContent] sends is the one built from
    its argument. *)
Lemma trace_analyzeContent (text : jsstring) (req : ChatRequest) :
  In (EvChatCreate req) (trace (analyzeContent svc text)) ->
  req = chat_request text.
Proof.
  unfold analyzeContent. rewrite trace_try_catch, in_app_iff.
  intros [H | H].
  - rewrite trace_bind, in_app_iff in H. destruct H as [[H | []] | H];
      [discriminate|].
    rewrite result_call in H. destruct (import_zai svc); [|destruct H].
    rewrite trace_bind, in_app_iff in H. destruct H as [[H | []] | H];
      [discriminate|].
    rewrite result_call in H. destruct (ZAI_create svc) as [zai|]; [|destruct H].
    rewrite trace_bind, in_app_iff in H. destruct H as [[H | []] | H];
      [congruence|].
    rewrite result_call in H.
    destruct (chat_completions_create zai (chat_request text)) as [completion|];
      [|destruct H].
    destruct (response_content completion) as [[|c cs]|]; try destruct H.
    rewrite trace_bind in H. cbn [lift trace fst app result snd] in H.
    destruct (JSON_parse svc (c :: cs)) as [analysis|]; [|destruct H].
    unfold build_analysis in H.
    repeat (rewrite trace_bind in H; cbn [lift trace fst app result snd] in H;
            match type of H with
            | In _ (match ?r with _ => _ end) => destruct r
            end; try destruct H).
  - destruct (result _); destruct H.
Qed.

End ExtractFacts.

(** ** The handler *)

Section PostFacts.

Variable svc : Services.

Lemma POST_accepted (request : NextRequest) (file : File) :
  accepted request file ->
  POST svc request = try_catch (process_file svc file) on_error.
Proof.
  intros (fd & Hfd & Hget & Htype & Hsize). unfold POST.
  destruct request as [form]. simpl in Hfd. subst form.
  unfold bind at 1, lift. cbn [formData]. rewrite Hget, Htype. cbn [negb].
  apply N.ltb_ge in Hsize. rewrite Hsize.
  destruct (process_file svc file) as [t r]. reflexivity.
Qed.

Lemma too_short_iff (t : jsstring) :
  too_short t = true <-> (List.length t < 10)%nat.
Proof.
  unfold too_short. rewrite orb_true_iff, Nat.ltb_lt.
  destruct t as [|c t]; simpl; split; auto; try lia; intuition discriminate.
Qed.

Lemma process_file_result (file : File) (buffer : Buffer) :
  arrayBuffer file = Ok buffer ->
  result (process_file svc file) =
  match result (extract_text svc file buffer) with
  | Throw e => Throw e
  | Ok raw =>
      if too_short (trim raw) then Ok no_text_response
      else match result (analyzeContent svc (trim raw)) with
           | Ok a => Ok (success_response file (trim raw) a)
           | Throw e => Throw e
           end
  end.
Proof.
  intros Hbuf. unfold process_file. run. rewrite Hbuf. run.
  destruct (result (extract_text svc file buffer)) as [raw|e]; [|reflexivity].
  destruct (too_short (trim raw)); run; [reflexivity|].
  destruct (result (analyzeContent svc (trim raw))); reflexivity.
Qed.

Lemma process_file_trace (file : File) (buffer : Buffer) :
  arrayBuffer file = Ok buffer ->
  trace (process_file svc file) =
  trace (extract_text svc file buffer) ++
  match result (extract_text svc file buffer) with
  | Throw e => []
  | Ok raw =>
      if too_short (trim raw) then []
      else trace (analyzeContent svc (trim raw))
  end.
Proof.
  intros Hbuf. unfold process_file.
  rewrite trace_bind, result_lift, Hbuf. cbn [lift trace fst app].
  rewrite trace_bind. f_equal.
  destruct (result (extract_text svc file buffer)) as [raw|e]; [|reflexivity].
  destruct (too_short (trim raw)); [reflexivity|].
  rewrite trace_bind.
  destruct (result (analyzeContent svc (trim raw))); cbn [ret trace fst];
    apply app_nil_r.
Qed.

Lemma POST_trace_accepted (request : NextRequest) (file : File) :
  accepted request file ->
  trace (POST svc request) = trace (process_file svc file).
Proof.
  intros Hacc. rewrite (POST_accepted _ _ Hacc), trace_try_catch.
  destruct (result (process_file svc file)); cbn [on_error ret trace fst];
    apply app_nil_r.
Qed.

(** A request whose extraction returns [text]: a short text is refused,
    any other is analysed and answered with success. *)
Lemma POST_extracts (request : NextRequest) (file : File) (text : jsstring) :
  extracts svc request file text ->
  exists a,
    result (analyzeContent svc text) = Ok a /\
    result (POST svc request) =
    Ok (if too_short text then no_text_response
        else success_response file text a).
Proof.
  intros (buffer & Hacc & Hbuf & Hext).
  destruct (analyzeContent_total svc text) as [a Ha].
  exists a. split; [assumption|].
  rewrite (POST_accepted _ _ Hacc), result_try_catch.
  rewrite (process_file_result _ _ Hbuf), Hext.
  rewrite (extract_text_trimmed _ _ _ _ Hext), Ha.
  destruct (too_short text); reflexivity.
Qed.

Lemma POST_extraction_fails (request : NextRequest) (file : File) :
  extraction_fails svc request file ->
  result (POST svc request) =
  Ok (NextResponse_json
        (error_body
           (if JsString.eqb (type file) (lit "application/pdf")
            then "Unable to read PDF content. The file may be corrupted or password-protected."
            else "Unable to extract text from image. Please ensure the image contains readable text."))
        500).
Proof.
  intros (buffer & e & Hacc & Hbuf & Hext).
  rewrite (POST_accepted _ _ Hacc), result_try_catch.
  rewrite (process_file_result _ _ Hbuf), Hext. cbv beta iota.
  unfold extract_text in Hext.
  destruct (JsString.eqb (type file) (lit "application/pdf")).
  - apply extractTextFromPDF_throws in Hext. subst e. reflexivity.
  - apply extractTextFromImage_throws in Hext. subst e. reflexivity.
Qed.

(** The preview of line 214 is the preview of the specification. *)
Lemma preview_refines_spec (text : jsstring) :
  preview text = Spec.preview text.
Proof.
  unfold preview, Spec.preview. rewrite substring_0.
  destruct (Nat.leb_spec (List.length text) 1000) as [Hle | Hgt].
  - apply Nat.ltb_ge in Hle. rewrite Hle, app_nil_r.
    apply firstn_all2. apply Nat.ltb_ge. assumption.
  - apply Nat.ltb_lt in Hgt. rewrite Hgt. reflexivity.
Qed.

(** Every way [POST] can answer.  It never throws. *)
Lemma POST_cases (request : NextRequest) :
  exists resp,
    result (POST svc request) = Ok resp /\
    (resp = no_file_response \/
     resp = unsupported_type_response \/
     resp = too_large_response \/
     resp = no_text_response \/
     (exists e, resp = NextResponse_json (error_body (error_message e)) 500) \/
     (exists file text a,
         extracts svc request file text /\
         too_short text = false /\
         result (analyzeContent svc text) = Ok a /\
         resp = success_response file text a)).
Proof.
  destruct (formData request) as [fd|e] eqn:Hfd.
  2:{ unfold POST. rewrite result_try_catch, result_bind, result_lift, Hfd.
      eexists; split; [reflexivity|]. do 4 right. left. eauto. }
  destruct (FormData_get fd (lit "file")) as [[file|[|c s]]|] eqn:Hget.
  2-4: unfold POST; rewrite result_try_catch, result_bind, result_lift, Hfd;
       cbv beta iota; rewrite Hget; eexists; split; [reflexivity|]; auto.
  destruct (array_includes allowedTypes (type file)) eqn:Htype.
  2:{ unfold POST. rewrite result_try_catch, result_bind, result_lift, Hfd.
      cbv beta iota. rewrite Hget, Htype. eexists; split; [reflexivity|]; auto. }
  destruct (maxSize <? size file)%N eqn:Hsize.
  { unfold POST. rewrite result_try_catch, result_bind, result_lift, Hfd.
    cbv beta iota. rewrite Hget, Htype, Hsize.
    eexists; split; [reflexivity|]; auto. }
  assert (Hacc : accepted request file).
  { exists fd. apply N.ltb_ge in Hsize. auto. }
  rewrite (POST_accepted _ _ Hacc), result_try_catch.
  destruct (arrayBuffer file) as [buffer|e] eqn:Hbuf.
  2:{ unfold process_file. rewrite result_bind, result_lift, Hbuf.
      eexists; split; [reflexivity|]. do 4 right. left. eauto. }
  rewrite (process_file_result _ _ Hbuf).
  destruct (result (extract_text svc file buffer)) as [raw|e] eqn:Hext.
  2:{ eexists; split; [reflexivity|]. do 4 right. left. eauto. }
  rewrite (extract_text_trimmed _ _ _ _ Hext).
  destruct (too_short raw) eqn:Hshort.
  { eexists; split; [reflexivity|]. auto. }
  destruct (analyzeContent_total svc raw) as [a Ha]. rewrite Ha.
  eexists; split; [reflexivity|]. do 5 right.
  exists file, raw, a. repeat split; auto. exists buffer. auto.
Qed.

End PostFacts.

(** * The claims *)

(** C5.  Whenever [extractTextFromPDF] returns, the document was loaded,
    every page 1..N was read, and the text returned is the trimmed
    concatenation of the pages in that order, the items of a page joined by
    one space and consecutive pages separated by a newline. *)
Theorem pdf_text_is_trimmed_page_join (svc : Services) (buffer : Buffer)
        (text : jsstring) :
  result (extractTextFromPDF svc buffer) = Ok text ->
  exists pdf pages,
    getDocument svc buffer = Ok pdf /\
    map (page_items pdf) (seq 1 (numPages pdf)) = map Ok pages /\
    text = trim (join newline (map (join space) pages)).
Proof.
  intros H.
  destruct (extractTextFromPDF_inv _ _ _ H) as (_ & pdf & pages & _ & Hdoc & Hp & ->).
  exists pdf, pages. auto.
Qed.

(** The two-page document reads as two lines. *)
Lemma pdf_text_is_trimmed_page_join_witness :
  exists pdf pages,
    getDocument Samples.world_150 [] = Ok pdf /\
    map (page_items pdf) (seq 1 (numPages pdf)) = map Ok pages /\
    lit "Hello world" ++ newline ++ lit "from page two"
    = trim (join newline (map (join space) pages)).
Proof.
  apply (pdf_text_is_trimmed_page_join Samples.world_150 []).
  vm_compute. reflexivity.
Defined.

(** C2, as amended.  When the request is accepted and its extractor throws,
    [POST] answers with status 500 and the message of that extractor: the
    PDF message for a file declared as application/pdf, the image message
    otherwise, never the generic one. *)
Theorem extraction_failure_answers_500 (svc : Services) (request : NextRequest)
        (file : File) :
  extraction_fails svc request file ->
  exists resp,
    result (POST svc request) = Ok resp /\
    status resp = 500%N /\
    body resp =
    error_body
      (if JsString.eqb (type file) (lit "application/pdf")
       then "Unable to read PDF content. The file may be corrupted or password-protected."
       else "Unable to extract text from image. Please ensure the image contains readable text.") /\
    body resp <> error_body "Failed to process file. Please try again.".
Proof.
  intros Hfail. rewrite (POST_extraction_fails _ _ _ Hfail).
  eexists. split; [reflexivity|]. split; [reflexivity|]. split; [reflexivity|].
  cbn [body NextResponse_json].
  destruct (JsString.eqb (type file) (lit "application/pdf"));
    intros H; vm_compute in H; discriminate.
Qed.

Lemma docx_extraction_fails :
  extraction_fails Samples.world_unreadable
                   (Samples.request_with Samples.docx_file) Samples.docx_file.
Proof.
  exists [], (ErrorObject (lit "Failed to extract text from PDF")).
  split; [|split; reflexivity].
  exists [ (lit "file", EntryFile Samples.docx_file) ].
  repeat split; try reflexivity. vm_compute. discriminate.
Defined.

(** A word-processor file declared as a PDF. *)
Lemma extraction_failure_answers_500_witness :
  exists resp,
    result (POST Samples.world_unreadable (Samples.request_with Samples.docx_file))
    = Ok resp /\
    status resp = 500%N /\
    body resp =
    error_body "Unable to read PDF content. The file may be corrupted or password-protected." /\
    body resp <> error_body "Failed to process file. Please try again.".
Proof.
  exact (extraction_failure_answers_500 _ _ _ docx_extraction_fails).
Defined.

(** C2, as stated, fails: the same request is answered with status 500,
    not 400. *)
Lemma extraction_failure_not_400 :
  result (POST Samples.world_unreadable (Samples.request_with Samples.docx_file))
  = Ok {| body := error_body "Unable to read PDF content. The file may be corrupted or password-protected.";
          status := 500 |}
  /\ 500%N <> 400%N.
Proof. split; [vm_compute; reflexivity | discriminate]. Qed.

(** C3.  When extraction returned a text of at least 10 characters and the
    remote analysis throws, returns no content or returns what JSON.parse
    rejects, [POST] still answers 200 with success true and the fixed
    fallback analysis. *)
Theorem analysis_failure_falls_back (svc : Services) (request : NextRequest)
        (file : File) (text : jsstring) :
  extracts svc request file text ->
  (10 <= List.length text)%nat ->
  analysis_fails svc text ->
  exists resp,
    result (POST svc request) = Ok resp /\
    status resp = 200%N /\
    Js.get (body resp) (lit "success") = Ok (VBool true) /\
    Js.get (body resp) (lit "analysis") =
    Ok (VObj
          [ (lit "engagementScore", VNum (Fin 75));
            (lit "sentiment", VStr (lit "neutral"));
            (lit "suggestions",
             VArr [ VStr (lit "Add more engaging questions to increase comments");
                    VStr (lit "Include relevant hashtags to improve discoverability");
                    VStr (lit "Use more visual content to boost engagement");
                    VStr (lit "Post during peak hours for better reach") ]);
            (lit "keyTopics",
             VArr [ VStr (lit "Content"); VStr (lit "Social Media") ]) ]).
Proof.
  intros Hext Hlen Hfail.
  destruct (POST_extracts _ _ _ _ Hext) as (a & Ha & ->).
  rewrite (analyzeContent_fails _ _ Hfail) in Ha. injection Ha as <-.
  destruct (too_short text) eqn:Hshort.
  { apply too_short_iff in Hshort. lia. }
  eexists. split; [reflexivity|]. repeat split.
Qed.

Lemma pdf_extracts_two_pages (reply : Outcome Completion) (parsed : Outcome Value) :
  extracts (Samples.world (Ok Samples.two_pages) (lit "scanned words on a page")
                          reply parsed)
           (Samples.request_with Samples.pdf_file) Samples.pdf_file
           (lit "Hello world" ++ newline ++ lit "from page two").
Proof.
  exists []. split; [|split; reflexivity].
  exists [ (lit "file", EntryFile Samples.pdf_file) ].
  repeat split; try reflexivity. vm_compute. discriminate.
Defined.

(** The service is down while a readable PDF is uploaded. *)
Lemma analysis_failure_falls_back_witness :
  exists resp,
    result (POST Samples.world_down (Samples.request_with Samples.pdf_file))
    = Ok resp /\
    status resp = 200%N /\
    Js.get (body resp) (lit "success") = Ok (VBool true) /\
    Js.get (body resp) (lit "analysis") = Ok (analysis_object fallback_analysis).
Proof.
  apply (analysis_failure_falls_back Samples.world_down
           (Samples.request_with Samples.pdf_file) Samples.pdf_file
           (lit "Hello world" ++ newline ++ lit "from page two")).
  - apply pdf_extracts_two_pages.
  - vm_compute. lia.
  - eapply call_throws; reflexivity.
Defined.

(** ** Validation *)

Section ValidationFacts.

Lemma allowedTypes_spec (t : jsstring) :
  array_includes allowedTypes t = true <-> In t Spec.accepted_types.
Proof. apply array_includes_In. Qed.

(** After the three checks the handler answers with the short-text
    refusal, a 500, or success. *)
Lemma process_file_cases (svc : Services) (file : File) :
  exists resp,
    result (try_catch (process_file svc file) on_error) = Ok resp /\
    (resp = no_text_response \/
     status resp = 500%N \/
     status resp = 200%N).
Proof.
  rewrite result_try_catch.
  destruct (arrayBuffer file) as [buffer|e] eqn:Hbuf.
  2:{ unfold process_file. rewrite result_bind, result_lift, Hbuf.
      eexists; split; [reflexivity|]. right; left; reflexivity. }
  rewrite (process_file_result _ _ _ Hbuf).
  destruct (result (extract_text svc file buffer)) as [raw|e].
  2:{ eexists; split; [reflexivity|]. right; left; reflexivity. }
  destruct (too_short (trim raw)).
  { eexists; split; [reflexivity|]. left; reflexivity. }
  destruct (analyzeContent_total svc (trim raw)) as [a ->].
  eexists; split; [reflexivity|]. right; right; reflexivity.
Qed.

Lemma validation_response_status (k : Spec.ValidationError) :
  status (validation_response k) = 400%N.
Proof. destruct k; reflexivity. Qed.

Lemma validation_response_injective (k1 k2 : Spec.ValidationError) :
  validation_response k1 = validation_response k2 -> k1 = k2.
Proof.
  destruct k1, k2; intros H; try reflexivity;
    apply (f_equal body) in H; vm_compute in H; discriminate.
Qed.

Lemma no_text_is_no_validation_error (k : Spec.ValidationError) :
  no_text_response <> validation_response k.
Proof.
  destruct k; intros H; apply (f_equal body) in H; vm_compute in H; discriminate.
Qed.

End ValidationFacts.

(** C4.  For a request whose file field is missing or holds an upload,
    [POST] refuses with the response of the first failing check, in the
    order missing file, type, size, and otherwise goes on to process the
    file; the file is accepted exactly when its declared type is one of the
    six and its size is at most 10 * 1024 * 1024.  The three refusals have
    status 400 and pairwise different messages. *)
Theorem validation_in_order (svc : Services) (fd : FormData) (upload : option File) :
  FormData_get fd (lit "file") = option_map EntryFile upload ->
  match Spec.validate upload with
  | Some k =>
      result (POST svc {| formData := Ok fd |}) = Ok (validation_response k)
  | None =>
      exists file,
        upload = Some file /\
        In (type file) Spec.accepted_types /\
        (size file <= 10 * 1024 * 1024)%N /\
        result (POST svc {| formData := Ok fd |})
        = result (try_catch (process_file svc file) on_error) /\
        forall k, result (POST svc {| formData := Ok fd |})
                  <> Ok (validation_response k)
  end
  /\ (forall k, status (validation_response k) = 400%N)
  /\ (forall k1 k2, validation_response k1 = validation_response k2 -> k1 = k2).
Proof.
  intros Hget.
  split; [|split; [apply validation_response_status
                  | apply validation_response_injective]].
  destruct upload as [file|]; cbn [Spec.validate option_map] in *.
  2:{ unfold POST. rewrite result_try_catch, result_bind, result_lift.
      cbn [formData]. rewrite Hget. reflexivity. }
  destruct (in_dec (list_eq_dec N.eq_dec) (type file) Spec.accepted_types)
    as [Hin | Hout].
  - destruct (size file <=? 10 * 1024 * 1024)%N eqn:Hsize.
    + apply N.leb_le in Hsize.
      assert (Hacc : accepted {| formData := Ok fd |} file).
      { exists fd. repeat split; auto. apply allowedTypes_spec; assumption. }
      exists file. repeat split; auto.
      * rewrite (POST_accepted _ _ _ Hacc). reflexivity.
      * intros k. rewrite (POST_accepted _ _ _ Hacc).
        destruct (process_file_cases svc file) as (resp & -> & [-> | [Hs | Hs]]);
          intros H; injection H as H.
        -- exact (no_text_is_no_validation_error k H).
        -- rewrite H, validation_response_status in Hs. discriminate.
        -- rewrite H, validation_response_status in Hs. discriminate.
    + apply N.leb_gt in Hsize. apply N.ltb_lt in Hsize.
      unfold POST. rewrite result_try_catch, result_bind, result_lift.
      cbn [formData]. rewrite Hget.
      apply allowedTypes_spec in Hin. rewrite Hin. cbn [negb].
      unfold maxSize. rewrite Hsize. reflexivity.
  - unfold POST. rewrite result_try_catch, result_bind, result_lift.
    cbn [formData]. rewrite Hget.
    destruct (array_includes allowedTypes (type file)) eqn:Hinc.
    + apply allowedTypes_spec in Hinc. contradiction.
    + reflexivity.
Qed.

(** A 12 MiB PNG is refused for its size. *)
Lemma validation_in_order_witness :
  result (POST Samples.world_150 (Samples.request_with Samples.big_png))
  = Ok too_large_response.
Proof.
  exact (proj1 (validation_in_order Samples.world_150
                  [ (lit "file", EntryFile Samples.big_png) ]
                  (Some Samples.big_png) eq_refl)).
Defined.

(** C6.  When extraction returned a text of at least 10 characters, the
    only chat request [POST] sends carries, between the fixed head and tail
    of the prompt, the first 2000 characters of that text and no more,
    while the textLength of the response is the length of the whole
    text. *)
Theorem prompt_truncated_length_whole (svc : Services) (request : NextRequest)
        (file : File) (text : jsstring) :
  extracts svc request file text ->
  (10 <= List.length text)%nat ->
  (forall req,
      In (EvChatCreate req) (trace (POST svc request)) ->
      map content (messages req) =
      [ lit "You are a social media content analysis expert. Provide detailed analysis and actionable suggestions.";
        prompt_head ++ firstn 2000 text ++ prompt_tail ])
  /\ (List.length (firstn 2000 text) <= 2000)%nat
  /\ exists resp,
      result (POST svc request) = Ok resp /\
      Js.get (body resp) (lit "success") = Ok (VBool true) /\
      Js.get (body resp) (lit "textLength")
      = Ok (VNum (num_of_nat (List.length text))).
Proof.
  intros Hext Hlen.
  assert (Hshort : too_short text = false).
  { destruct (too_short text) eqn:Hs; [|reflexivity].
    apply too_short_iff in Hs. lia. }
  split; [|split].
  - intros req Hin.
    destruct Hext as (buffer & Hacc & Hbuf & Hres).
    rewrite (POST_trace_accepted _ _ _ Hacc) in Hin.
    rewrite (process_file_trace _ _ _ Hbuf), Hres in Hin.
    rewrite (extract_text_trimmed _ _ _ _ Hres), Hshort in Hin.
    apply in_app_iff in Hin. destruct Hin as [Hin | Hin].
    + pose proof (trace_extract_text svc file buffer) as Hno.
      rewrite Forall_forall in Hno. apply Hno in Hin. discriminate.
    + apply trace_analyzeContent in Hin. subst req.
      cbn [chat_request messages map content]. unfold prompt_of.
      rewrite substring_0. reflexivity.
  - apply firstn_le_length.
  - destruct (POST_extracts _ _ _ _ Hext) as (a & _ & ->).
    rewrite Hshort. eexists. split; [reflexivity|]. split; reflexivity.
Qed.

Lemma ocr_extracts_scan :
  extracts Samples.world_scan (Samples.request_with Samples.png_file)
           Samples.png_file Samples.scan_2500.
Proof.
  exists []. split; [|split; [reflexivity | vm_compute; reflexivity]].
  exists [ (lit "file", EntryFile Samples.png_file) ].
  repeat split; try reflexivity. vm_compute. discriminate.
Defined.

(** A scan of 2500 letters: the prompt holds 2000 of them, the response
    reports 2500. *)
Lemma prompt_truncated_length_whole_witness :
  (forall req,
      In (EvChatCreate req)
         (trace (POST Samples.world_scan (Samples.request_with Samples.png_file))) ->
      map content (messages req) =
      [ lit "You are a social media content analysis expert. Provide detailed analysis and actionable suggestions.";
        prompt_head ++ firstn 2000 Samples.scan_2500 ++ prompt_tail ])
  /\ (List.length (firstn 2000 Samples.scan_2500) <= 2000)%nat
  /\ exists resp,
      result (POST Samples.world_scan (Samples.request_with Samples.png_file))
      = Ok resp /\
      Js.get (body resp) (lit "success") = Ok (VBool true) /\
      Js.get (body resp) (lit "textLength")
      = Ok (VNum (num_of_nat (List.length Samples.scan_2500))).
Proof.
  apply (prompt_truncated_length_whole Samples.world_scan
           (Samples.request_with Samples.png_file) Samples.png_file
           Samples.scan_2500).
  - apply ocr_extracts_scan.
  - vm_compute. lia.
Defined.

(** C7.  In every response with success true, extractedText is the whole
    extracted text when that text has at most 1000 characters, and its
    first 1000 characters followed by three dots when it has more. *)
Theorem preview_of_success (svc : Services) (request : NextRequest)
        (resp : NextResponse) :
  result (POST svc request) = Ok resp ->
  Js.get (body resp) (lit "success") = Ok (VBool true) ->
  exists file text,
    extracts svc request file text /\
    ((List.length text <= 1000)%nat ->
     Js.get (body resp) (lit "extractedText") = Ok (VStr text)) /\
    ((1000 < List.length text)%nat ->
     Js.get (body resp) (lit "extractedText")
     = Ok (VStr (firstn 1000 text ++ lit "..."))).
Proof.
  intros Hres Hsucc.
  destruct (POST_cases svc request) as (resp' & Hres' & Hcases).
  rewrite Hres in Hres'. injection Hres' as <-.
  destruct Hcases as [-> | [-> | [-> | [-> | [(e & ->) |
    (file & text & a & Hext & _ & _ & ->)]]]]];
    try (vm_compute in Hsucc; discriminate).
  exists file, text. split; [assumption|]. split; intros Hlen.
  - change (Js.get (body (success_response file text a)) (lit "extractedText"))
      with (@Ok Value (VStr (preview text))).
    unfold preview. rewrite substring_0_all by assumption.
    apply Nat.ltb_ge in Hlen. rewrite Hlen. rewrite app_nil_r. reflexivity.
  - change (Js.get (body (success_response file text a)) (lit "extractedText"))
      with (@Ok Value (VStr (preview text))).
    unfold preview. rewrite substring_0.
    apply Nat.ltb_lt in Hlen. rewrite Hlen. reflexivity.
Qed.

(** The two-page document: its 25 characters are returned whole. *)
Lemma preview_of_success_witness :
  exists file text,
    extracts Samples.world_150 (Samples.request_with Samples.pdf_file) file text /\
    ((List.length text <= 1000)%nat ->
     Js.get (body (success_response Samples.pdf_file
                     (lit "Hello world" ++ newline ++ lit "from page two")
                     {| engagementScore := Fin 100;
                        sentiment := VStr (lit "neutral");
                        suggestions := default_suggestions;
                        keyTopics := default_keyTopics |}))
            (lit "extractedText") = Ok (VStr text)) /\
    ((1000 < List.length text)%nat ->
     Js.get (body (success_response Samples.pdf_file
                     (lit "Hello world" ++ newline ++ lit "from page two")
                     {| engagementScore := Fin 100;
                        sentiment := VStr (lit "neutral");
                        suggestions := default_suggestions;
                        keyTopics := default_keyTopics |}))
            (lit "extractedText")
     = Ok (VStr (firstn 1000 text ++ lit "..."))).
Proof.
  apply (preview_of_success Samples.world_150 (Samples.request_with Samples.pdf_file)).
  - vm_compute. reflexivity.
  - vm_compute. reflexivity.
Defined.

(** A scan of 1200 letters: the preview is 1000 letters and three dots. *)
Example preview_of_long_text :
  exists resp,
    result (POST (Samples.world (Ok Samples.two_pages) Samples.long_text
                                (Throw Samples.syntax_error) (Throw Samples.syntax_error))
                 (Samples.request_with Samples.png_file)) = Ok resp /\
    Js.get (body resp) (lit "extractedText")
    = Ok (VStr (repeat 97%N 1000 ++ lit "...")) /\
    Js.get (body resp) (lit "textLength") = Ok (VNum (num_of_nat 1200)).
Proof. eexists. split; [vm_compute; reflexivity|]. split; vm_compute; reflexivity. Qed.

(** C8.  When the extractor returned normally but the trimmed text has
    fewer than 10 characters, [POST] answers 400 with the message about no
    readable text, and no call to the analysis service is made. *)
Theorem short_text_refused (svc : Services) (request : NextRequest)
        (file : File) (text : jsstring) :
  extracts svc request file text ->
  (List.length (trim text) < 10)%nat ->
  result (POST svc request)
  = Ok {| body := error_body "No readable text found in the file. Please ensure the file contains text content.";
          status := 400 |}
  /\ Forall (fun ev => is_analysis_event ev = false) (trace (POST svc request)).
Proof.
  intros Hext Hlen.
  assert (Htrim : trim text = text).
  { destruct Hext as (buffer & _ & _ & Hres).
    exact (extract_text_trimmed _ _ _ _ Hres). }
  rewrite Htrim in Hlen. apply too_short_iff in Hlen. split.
  - destruct (POST_extracts _ _ _ _ Hext) as (a & _ & ->).
    rewrite Hlen. reflexivity.
  - destruct Hext as (buffer & Hacc & Hbuf & Hres).
    rewrite (POST_trace_accepted _ _ _ Hacc).
    rewrite (process_file_trace _ _ _ Hbuf), Hres, Htrim, Hlen, app_nil_r.
    apply trace_extract_text.
Qed.

(** A blank scan. *)
Lemma short_text_refused_witness :
  result (POST Samples.world_unreadable (Samples.request_with Samples.png_file))
  = Ok {| body := error_body "No readable text found in the file. Please ensure the file contains text content.";
          status := 400 |}
  /\ Forall (fun ev => is_analysis_event ev = false)
            (trace (POST Samples.world_unreadable
                         (Samples.request_with Samples.png_file))).
Proof.
  apply (short_text_refused Samples.world_unreadable
           (Samples.request_with Samples.png_file) Samples.png_file []).
  - exists []. split; [|split; reflexivity].
    exists [ (lit "file", EntryFile Samples.png_file) ].
    repeat split; try reflexivity. vm_compute. discriminate.
  - vm_compute. lia.
Defined.

(** C9, as amended.  Every response of [POST] that does not carry success
    true has a body with exactly one property, error, holding one message;
    it carries no success flag at all. *)
Theorem failure_body_is_error_only (svc : Services) (request : NextRequest)
        (resp : NextResponse) :
  result (POST svc request) = Ok resp ->
  status resp <> 200%N ->
  (exists msg, body resp = VObj [ (lit "error", VStr (lit msg)) ])
  /\ Js.get (body resp) (lit "success") = Ok VUndefined
  /\ (status resp = 400%N \/ status resp = 500%N).
Proof.
  intros Hres Hfail.
  destruct (POST_cases svc request) as (resp' & Hres' & Hcases).
  rewrite Hres in Hres'. injection Hres' as <-.
  destruct Hcases as [-> | [-> | [-> | [-> | [(e & ->) |
    (file & text & a & _ & _ & _ & ->)]]]]];
    try (split; [eexists; reflexivity | split; [reflexivity | auto]]).
  exfalso. apply Hfail. reflexivity.
Qed.

(** A request without a file. *)
Lemma failure_body_is_error_only_witness :
  (exists msg, body no_file_response = VObj [ (lit "error", VStr (lit msg)) ])
  /\ Js.get (body no_file_response) (lit "success") = Ok VUndefined
  /\ (status no_file_response = 400%N \/ status no_file_response = 500%N).
Proof.
  apply (failure_body_is_error_only Samples.world_150 Samples.empty_request).
  - reflexivity.
  - vm_compute. discriminate.
Defined.

(** C9, as stated, fails: the body of a refusal is [{ error: ... }] alone;
    reading its success property gives undefined, not false. *)
Lemma failure_body_has_no_success_flag :
  result (POST Samples.world_150 Samples.empty_request)
  = Ok {| body := VObj [ (lit "error", VStr (lit "No file provided")) ];
          status := 400 |}
  /\ Js.get (VObj [ (lit "error", VStr (lit "No file provided")) ]) (lit "success")
     <> Ok (VBool false).
Proof. split; [reflexivity | vm_compute; discriminate]. Qed.

(** * Further properties of the route *)

(** ** Logs of calls *)

Section TraceFacts.

Context {A B : Type}.

Lemma trace_lift_bind (r : Outcome A) (k : A -> M B) :
  trace (bind (lift r) k) =
  match r with
  | Ok a => trace (k a)
  | Throw _ => []
  end.
Proof. rewrite trace_bind. destruct r; reflexivity. Qed.

Lemma trace_call_bind (ev : Event) (r : Outcome A) (k : A -> M B) :
  trace (bind (call ev r) k) =
  ev :: match r with
        | Ok a => trace (k a)
        | Throw _ => []
        end.
Proof. rewrite trace_bind. destruct r; reflexivity. Qed.

Lemma result_call_bind (ev : Event) (r : Outcome A) (k : A -> M B) :
  result (bind (call ev r) k) =
  match r with
  | Ok a => result (k a)
  | Throw e => Throw e
  end.
Proof. rewrite result_bind. reflexivity. Qed.

End TraceFacts.

Lemma prefix_of_refl {A : Type} (l : list A) : prefix_of l l.
Proof. exists []. symmetry. apply app_nil_r. Qed.

Lemma prefix_of_cons {A : Type} (x : A) (p l : list A) :
  prefix_of p l -> prefix_of (x :: p) (x :: l).
Proof. intros [rest ->]. exists rest. reflexivity. Qed.

Lemma prefix_of_nil {A : Type} (l : list A) : prefix_of [] l.
Proof. exists l. reflexivity. Qed.

Section CallOrder.

Variable svc : Services.

Lemma trace_build_analysis (analysis : Value) :
  trace (build_analysis analysis) = [].
Proof.
  unfold build_analysis.
  repeat (rewrite trace_lift_bind;
          match goal with
          | |- match ?r with _ => _ end = _ => destruct r; [|reflexivity]
          end).
  reflexivity.
Qed.

Lemma trace_analyzeContent_prefix (text : jsstring) :
  prefix_of (trace (analyzeContent svc text)) (analysis_script text).
Proof.
  unfold analyzeContent, analysis_script. rewrite trace_try_catch.
  rewrite result_call_bind, trace_call_bind.
  destruct (import_zai svc) as [u|e].
  2:{ cbn [app throw ret trace fst]. repeat apply prefix_of_cons || apply prefix_of_nil. }
  rewrite result_call_bind, trace_call_bind.
  destruct (ZAI_create svc) as [zai|e].
  2:{ cbn [app throw ret trace fst]. repeat apply prefix_of_cons || apply prefix_of_nil. }
  cbv zeta. rewrite result_call_bind, trace_call_bind.
  destruct (chat_completions_create zai (chat_request text)) as [completion|e].
  2:{ cbn [app throw ret trace fst]. repeat apply prefix_of_cons || apply prefix_of_nil. }
  destruct (response_content completion) as [[|c cs]|];
    try (cbn [app throw ret trace fst result snd];
         repeat apply prefix_of_cons || apply prefix_of_nil).
  rewrite result_bind, result_lift, trace_lift_bind.
  destruct (JSON_parse svc (c :: cs)) as [analysis|e].
  - rewrite trace_build_analysis.
    destruct (result (build_analysis analysis));
      cbn [app ret trace fst]; apply prefix_of_refl.
  - cbn [app ret trace fst]. apply prefix_of_refl.
Qed.


Lemma trace_pdf_pages_ok (pdf : PDFDocumentProxy) (ns : list nat) :
  forall acc text,
    result (pdf_pages pdf ns acc) = Ok text ->
    trace (pdf_pages pdf ns acc)
    = flat_map (fun i => [ EvGetPage i; EvGetTextContent i ]) ns.
Proof.
  induction ns as [|i ns IH]; intros acc text Hres; [reflexivity|].
  cbn [pdf_pages] in *.
  rewrite result_call_bind in Hres. rewrite trace_call_bind.
  destruct (getPage pdf i) as [page|]; [|discriminate].
  rewrite result_call_bind in Hres. rewrite trace_call_bind.
  destruct (getTextContent page) as [tc|]; [|discriminate].
  cbn [flat_map app]. rewrite (IH _ _ Hres). reflexivity.
Qed.

End CallOrder.

(** ** The shape of a run of [POST] *)

Section PostShape.

Variable svc : Services.

(** A request is either refused before any service is called, or
    accepted. *)
Lemma POST_refused_or_accepted (request : NextRequest) :
  (trace (POST svc request) = [] /\
   exists resp,
     result (POST svc request) = Ok resp /\
     (resp = no_file_response \/
      resp = unsupported_type_response \/
      resp = too_large_response \/
      exists e, formData request = Throw e /\
                resp = NextResponse_json (error_body (error_message e)) 500))
  \/ exists file, accepted request file.
Proof.
  destruct request as [[fd|e]].
  2:{ left. split; [reflexivity|]. eexists. split; [reflexivity|].
      do 3 right. exists e. split; reflexivity. }
  destruct (FormData_get fd (lit "file")) as [[file|[|c s]]|] eqn:Hget.
  2-4: left; unfold POST, bind, lift; cbn [formData]; rewrite Hget;
       split; [reflexivity|]; eexists; split; [reflexivity|]; auto.
  destruct (array_includes allowedTypes (type file)) eqn:Htype.
  2:{ left. unfold POST, bind, lift. cbn [formData]. rewrite Hget, Htype.
      split; [reflexivity|]. eexists. split; [reflexivity|]. auto. }
  destruct (maxSize <? size file)%N eqn:Hsize.
  { left. unfold POST, bind, lift. cbn [formData]. rewrite Hget, Htype, Hsize.
    split; [reflexivity|]. eexists. split; [reflexivity|]. auto. }
  right. exists file, fd. apply N.ltb_ge in Hsize. auto.
Qed.

Lemma process_file_unreadable (file : File) (e : Thrown) :
  arrayBuffer file = Throw e ->
  process_file svc file = ([], Throw e).
Proof. intros H. unfold process_file, bind, lift. rewrite H. reflexivity. Qed.

Lemma analysis_events (text : jsstring) :
  Forall (fun ev => is_analysis_event ev = true) (trace (analyzeContent svc text)).
Proof.
  destruct (trace_analyzeContent_prefix svc text) as [rest Hrest].
  assert (Hall : Forall (fun ev => is_analysis_event ev = true) (analysis_script text))
    by (repeat constructor).
  rewrite Hrest in Hall. apply Forall_app in Hall. tauto.
Qed.

(** The log of an accepted request: the calls of the extractor, then those
    of the analysis when the text is long enough. *)
Lemma POST_trace_split (request : NextRequest) :
  exists ex an,
    trace (POST svc request) = ex ++ an /\
    Forall (fun ev => is_analysis_event ev = false) ex /\
    (an = [] \/ exists text, an = trace (analyzeContent svc text)) /\
    ((exists file buffer, ex = trace (extract_text svc file buffer)) \/ ex = []).
Proof.
  destruct (POST_refused_or_accepted request) as [[Ht _] | [file Hacc]].
  { exists [], []. rewrite Ht. repeat split; auto. }
  rewrite (POST_trace_accepted _ _ _ Hacc).
  destruct (arrayBuffer file) as [buffer|e] eqn:Hbuf.
  2:{ rewrite (process_file_unreadable _ _ Hbuf).
      exists [], []. repeat split; auto. }
  rewrite (process_file_trace _ _ _ Hbuf).
  exists (trace (extract_text svc file buffer)).
  eexists. split; [reflexivity|]. split; [apply trace_extract_text|].
  split; [|left; eauto].
  destruct (result (extract_text svc file buffer)) as [raw|]; [|auto].
  destruct (too_short (trim raw)); eauto.
Qed.

End PostShape.

(** X1.  [POST] never throws: every request is answered, with status 200,
    400 or 500, and the status is 200 exactly when the body carries
    success true. *)
Theorem POST_always_answers (svc : Services) (request : NextRequest) :
  exists resp,
    result (POST svc request) = Ok resp /\
    (status resp = 200%N \/ status resp = 400%N \/ status resp = 500%N) /\
    (status resp = 200%N <->
     Js.get (body resp) (lit "success") = Ok (VBool true)).
Proof.
  destruct (POST_cases svc request) as (resp & Hres & Hcases).
  exists resp. split; [assumption|].
  destruct Hcases as [-> | [-> | [-> | [-> | [(e & ->) |
    (file & text & a & _ & _ & _ & ->)]]]]];
    (split; [auto|]); split; intros H; try reflexivity;
      try (vm_compute in H; discriminate).
Qed.

(** X2.  Once the extractor has returned at least 10 characters the request
    succeeds, whatever the analysis service does: the answer is the success
    response built from the extracted text and from what [analyzeContent]
    returned. *)
Theorem long_enough_text_always_succeeds (svc : Services) (request : NextRequest)
        (file : File) (text : jsstring) :
  extracts svc request file text ->
  (10 <= List.length text)%nat ->
  exists a,
    result (analyzeContent svc text) = Ok a /\
    result (POST svc request) = Ok (success_response file text a) /\
    status (success_response file text a) = 200%N.
Proof.
  intros Hext Hlen.
  destruct (POST_extracts _ _ _ _ Hext) as (a & Ha & Hres).
  exists a. split; [assumption|]. split; [|reflexivity].
  rewrite Hres. destruct (too_short text) eqn:Hs; [|reflexivity].
  apply too_short_iff in Hs. lia.
Qed.

Lemma long_enough_text_always_succeeds_witness :
  exists a,
    result (analyzeContent Samples.world_150
              (lit "Hello world" ++ newline ++ lit "from page two")) = Ok a /\
    result (POST Samples.world_150 (Samples.request_with Samples.pdf_file))
    = Ok (success_response Samples.pdf_file
            (lit "Hello world" ++ newline ++ lit "from page two") a) /\
    status (success_response Samples.pdf_file
              (lit "Hello world" ++ newline ++ lit "from page two") a) = 200%N.
Proof.
  apply (long_enough_text_always_succeeds Samples.world_150
           (Samples.request_with Samples.pdf_file) Samples.pdf_file).
  - apply pdf_extracts_two_pages.
  - vm_compute. lia.
Defined.

(** X3.  A request refused by validation costs no external call: when the
    answer is one of the three validation refusals, the log of calls to the
    PDF library, the OCR engine and the analysis service is empty. *)
Theorem refused_request_calls_no_service (svc : Services) (request : NextRequest)
        (k : Spec.ValidationError) :
  result (POST svc request) = Ok (validation_response k) ->
  trace (POST svc request) = [].
Proof.
  intros Hres.
  destruct (POST_refused_or_accepted svc request) as [[Ht _] | [file Hacc]];
    [assumption|].
  exfalso. rewrite (POST_accepted _ _ _ Hacc) in Hres.
  destruct (process_file_cases svc file) as (resp & Hp & [-> | [Hs | Hs]]);
    rewrite Hp in Hres; injection Hres as Hres.
  - exact (no_text_is_no_validation_error k Hres).
  - rewrite Hres, validation_response_status in Hs. discriminate.
  - rewrite Hres, validation_response_status in Hs. discriminate.
Qed.

Lemma refused_request_calls_no_service_witness :
  trace (POST Samples.world_150 (Samples.request_with Samples.big_png)) = [].
Proof.
  apply (refused_request_calls_no_service Samples.world_150
           (Samples.request_with Samples.big_png) Spec.FileTooLargeError).
  reflexivity.
Defined.

(** X4.  The two extractors are never both used for one request: the log of
    a request holds no call to the OCR engine or no call to the PDF
    library. *)
Theorem pdf_and_ocr_exclusive (svc : Services) (request : NextRequest) :
  Forall (fun ev => is_ocr_event ev = false) (trace (POST svc request)) \/
  Forall (fun ev => is_pdf_event ev = false) (trace (POST svc request)).
Proof.
  destruct (POST_trace_split svc request)
    as (ex & an & -> & _ & Han & [(file & buffer & ->) | ->]).
  2:{ left. apply Forall_app. split; [constructor|].
      destruct Han as [-> | [text ->]]; [constructor|].
      eapply Forall_impl; [|apply analysis_events].
      intros [m| | | | | | | | | |]; simpl; try discriminate; reflexivity. }
  assert (Hnot_pdf : Forall (fun ev => is_pdf_event ev = false) an).
  { destruct Han as [-> | [text ->]]; [constructor|].
    eapply Forall_impl; [|apply analysis_events].
    intros [m| | | | | | | | | |]; simpl; try discriminate; try reflexivity.
    intros Hm. apply String.eqb_eq in Hm. subst m. reflexivity. }
  assert (Hnot_ocr : Forall (fun ev => is_ocr_event ev = false) an).
  { destruct Han as [-> | [text ->]]; [constructor|].
    eapply Forall_impl; [|apply analysis_events].
    intros [m| | | | | | | | | |]; simpl; try discriminate; reflexivity. }
  unfold extract_text.
  destruct (JsString.eqb (type file) (lit "application/pdf")).
  - left. apply Forall_app. split; [|assumption].
    eapply Forall_impl; [|apply trace_extractTextFromPDF].
    intros [m| | | | | | | | | |]; simpl; try discriminate; reflexivity.
  - right. apply Forall_app. split; [|assumption].
    eapply Forall_impl; [|apply trace_extractTextFromImage].
    intros [m| | | | | | | | | |]; simpl; try discriminate; reflexivity.
Qed.

(** X5.  The analysis service is called after the extractor is done, and at
    most once: the log of a request is a part without analysis calls
    followed by a beginning of import, create, chat; it holds at most one
    chat request. *)
Theorem analysis_follows_extraction_once (svc : Services) (request : NextRequest) :
  (exists ex an,
      trace (POST svc request) = ex ++ an /\
      Forall (fun ev => is_analysis_event ev = false) ex /\
      (an = [] \/ exists text, prefix_of an (analysis_script text)))
  /\ (List.length (filter is_chat_event (trace (POST svc request))) <= 1)%nat.
Proof.
  destruct (POST_trace_split svc request) as (ex & an & Ht & Hex & Han & _).
  assert (Hcount : (List.length (filter is_chat_event an) <= 1)%nat).
  { destruct Han as [-> | [text ->]]; [simpl; lia|].
    destruct (trace_analyzeContent_prefix svc text) as [rest Hrest].
    apply (f_equal (fun l => List.length (filter is_chat_event l))) in Hrest.
    rewrite filter_app, length_app in Hrest. cbn in Hrest. lia. }
  split.
  - exists ex, an. repeat split; auto.
    destruct Han as [-> | [text ->]]; [auto|].
    right. exists text. apply trace_analyzeContent_prefix.
  - rewrite Ht, filter_app, length_app.
    assert (Hnone : filter is_chat_event ex = []).
    { clear Ht. induction Hex as [|ev ex Hev _ IH]; [reflexivity|].
      simpl. destruct ev; simpl in *; try discriminate; assumption. }
    rewrite Hnone. simpl. assumption.
Qed.

(** X6.  For an accepted request whose bytes can be read, a 500 answer
    always carries one of the two extractor messages.  In particular the
    messages about the analysis service, the storage and the timeout are
    never sent for such a request: [analyzeContent] swallows its own
    failures, so the third branch of the [catch] block is out of its
    reach. *)
Theorem accepted_request_500_is_extractor_failure (svc : Services)
        (request : NextRequest) (file : File) (buffer : Buffer)
        (resp : NextResponse) :
  accepted request file ->
  arrayBuffer file = Ok buffer ->
  result (POST svc request) = Ok resp ->
  status resp = 500%N ->
  (exists e, result (extract_text svc file buffer) = Throw e) /\
  (body resp =
   error_body "Unable to read PDF content. The file may be corrupted or password-protected."
   \/ body resp =
   error_body "Unable to extract text from image. Please ensure the image contains readable text.").
Proof.
  intros Hacc Hbuf Hres Hs.
  destruct (result (extract_text svc file buffer)) as [raw|e] eqn:Hext.
  - exfalso.
    assert (Hx : extracts svc request file raw) by (exists buffer; auto).
    destruct (POST_extracts _ _ _ _ Hx) as (a & _ & Hp).
    rewrite Hp in Hres. injection Hres as <-.
    destruct (too_short raw); discriminate.
  - split; [eauto|].
    assert (Hf : extraction_fails svc request file) by (exists buffer, e; auto).
    rewrite (POST_extraction_fails _ _ _ Hf) in Hres. injection Hres as <-.
    destruct (JsString.eqb (type file) (lit "application/pdf")); auto.
Qed.

Lemma docx_accepted :
  accepted (Samples.request_with Samples.docx_file) Samples.docx_file.
Proof.
  exists [ (lit "file", EntryFile Samples.docx_file) ].
  repeat split; try reflexivity. vm_compute. discriminate.
Defined.

Lemma accepted_request_500_is_extractor_failure_witness :
  (exists e, result (extract_text Samples.world_unreadable Samples.docx_file [])
             = Throw e) /\
  (body (NextResponse_json
           (error_body "Unable to read PDF content. The file may be corrupted or password-protected.")
           500) =
   error_body "Unable to read PDF content. The file may be corrupted or password-protected."
   \/ body (NextResponse_json
              (error_body "Unable to read PDF content. The file may be corrupted or password-protected.")
              500) =
   error_body "Unable to extract text from image. Please ensure the image contains readable text.").
Proof.
  apply (accepted_request_500_is_extractor_failure Samples.world_unreadable
           (Samples.request_with Samples.docx_file) Samples.docx_file []).
  - apply docx_accepted.
  - reflexivity.
  - vm_compute. reflexivity.
  - reflexivity.
Defined.





(** ** The extractors *)



(** X10.  The worker is terminated only after a recognition that returned:
    when creating, loading, initializing or recognizing fails, [terminate]
    is never called. *)
Theorem worker_terminated_only_after_recognition (svc : Services) (buffer : Buffer) :
  In EvTerminate (trace (extractTextFromImage svc buffer)) ->
  exists worker text,
    createWorker svc = Ok worker /\
    loadLanguage worker (lit "eng") = Ok tt /\
    initialize worker (lit "eng") = Ok tt /\
    recognize worker buffer = Ok text.
Proof.
  unfold extractTextFromImage. rewrite trace_try_catch, in_app_iff.
  intros [H | H].
  2:{ destruct (result _); destruct H. }
  rewrite trace_call_bind in H. destruct H as [H | H]; [discriminate|].
  destruct (createWorker svc) as [worker|]; [|destruct H].
  rewrite trace_call_bind in H. destruct H as [H | H]; [discriminate|].
  destruct (loadLanguage worker (lit "eng")) as [[]|] eqn:Hl; [|destruct H].
  rewrite trace_call_bind in H. destruct H as [H | H]; [discriminate|].
  destruct (initialize worker (lit "eng")) as [[]|] eqn:Hi; [|destruct H].
  rewrite trace_call_bind in H. destruct H as [H | H]; [discriminate|].
  destruct (recognize worker buffer) as [text|] eqn:Hr; [|destruct H].
  exists worker, text. auto.
Qed.

Lemma worker_terminated_only_after_recognition_witness :
  exists worker text,
    createWorker Samples.world_150 = Ok worker /\
    loadLanguage worker (lit "eng") = Ok tt /\
    initialize worker (lit "eng") = Ok tt /\
    recognize worker [] = Ok text.
Proof.
  apply (worker_terminated_only_after_recognition Samples.world_150 []).
  vm_compute. auto 10.
Defined.

(** A failed recognition leaves the worker running. *)
Example failed_recognition_log :
  extractTextFromImage MoreSamples.world_ocr_fails []
  = ([ EvCreateWorker; EvLoadLanguage (lit "eng"); EvInitialize (lit "eng");
       EvRecognize [] ],
     Throw (ErrorObject (lit "Failed to extract text from image"))).
Proof. vm_compute. reflexivity. Qed.

Lemma trim_all_ws (w : jsstring) : forallb is_ws w = true -> trim w = [].
Proof. intros Hw. exact (trim_app_ws [] w Hw). Qed.

Lemma pair_of_trace_result {A : Type} (m : M A) : m = (trace m, result m).
Proof. destruct m; reflexivity. Qed.

(** X11.  When the import, the load and the reading of every page succeed,
    [extractTextFromPDF] returns the trimmed page text, having asked for
    the pages 1..N in order, each once. *)
Theorem pdf_extraction_returns (svc : Services) (buffer : Buffer) (u : unit)
        (pdf : PDFDocumentProxy) (pages : list (list jsstring)) :
  import_pdfjs svc = Ok u ->
  getDocument svc buffer = Ok pdf ->
  map (page_items pdf) (seq 1 (numPages pdf)) = map Ok pages ->
  extractTextFromPDF svc buffer
  = (pdf_script buffer (numPages pdf),
     Ok (trim (join newline (map (join space) pages)))).
Proof.
  intros Himp Hdoc Hpages.
  rewrite (pair_of_trace_result (extractTextFromPDF svc buffer)).
  rewrite (extractTextFromPDF_returns _ _ _ _ _ Himp Hdoc Hpages).
  f_equal. unfold extractTextFromPDF, pdf_script.
  rewrite trace_try_catch, result_call_bind, trace_call_bind, Himp.
  rewrite result_call_bind, trace_call_bind, Hdoc.
  rewrite result_bind, trace_bind.
  rewrite (pdf_pages_ok pdf _ pages [] Hpages).
  rewrite (trace_pdf_pages_ok pdf _ [] _ (pdf_pages_ok pdf _ pages [] Hpages)).
  cbn [ret trace fst result snd app]. rewrite !app_nil_r. reflexivity.
Qed.

Lemma pdf_extraction_returns_witness :
  extractTextFromPDF Samples.world_150 []
  = ([ EvImport "pdfjs-dist/build/pdf"; EvGetDocument [];
       EvGetPage 1; EvGetTextContent 1; EvGetPage 2; EvGetTextContent 2 ],
     Ok (trim (join newline
                 (map (join space)
                      [ [ lit "Hello"; lit "world" ];
                        [ lit "from"; lit "page"; lit "two" ] ])))).
Proof.
  exact (pdf_extraction_returns Samples.world_150 [] tt Samples.two_pages
           [ [ lit "Hello"; lit "world" ]; [ lit "from"; lit "page"; lit "two" ] ]
           eq_refl eq_refl eq_refl).
Defined.

(** X12.  Extraction from a PDF is all or nothing: when any one page of the
    loaded document cannot be read, the text of the other pages is dropped
    and the extractor throws its fixed error. *)
Theorem pdf_page_failure_discards_all (svc : Services) (buffer : Buffer)
        (pdf : PDFDocumentProxy) (i : nat) (e : Thrown) :
  getDocument svc buffer = Ok pdf ->
  (1 <= i <= numPages pdf)%nat ->
  page_items pdf i = Throw e ->
  result (extractTextFromPDF svc buffer)
  = Throw (ErrorObject (lit "Failed to extract text from PDF")).
Proof.
  intros Hdoc Hi Hpage.
  destruct (result (extractTextFromPDF svc buffer)) as [text|e'] eqn:Hres.
  - exfalso.
    destruct (extractTextFromPDF_inv _ _ _ Hres)
      as (_ & pdf' & pages & _ & Hdoc' & Hmap & _).
    rewrite Hdoc in Hdoc'. injection Hdoc' as <-.
    assert (Hin : In (page_items pdf i) (map Ok pages)).
    { rewrite <- Hmap. apply in_map. apply in_seq. lia. }
    rewrite Hpage in Hin. apply in_map_iff in Hin.
    destruct Hin as (p & Hp & _). discriminate.
  - f_equal. exact (extractTextFromPDF_throws _ _ _ Hres).
Qed.

Lemma pdf_page_failure_discards_all_witness :
  result (extractTextFromPDF
            (MoreSamples.world_with_pdf MoreSamples.broken_second_page) [])
  = Throw (ErrorObject (lit "Failed to extract text from PDF")).
Proof.
  apply (pdf_page_failure_discards_all
           (MoreSamples.world_with_pdf MoreSamples.broken_second_page) []
           MoreSamples.broken_second_page 2
           (ErrorObject (lit "Invalid page request"))).
  - reflexivity.
  - simpl. lia.
  - reflexivity.
Defined.

(** X13.  A PDF without pages is refused: the extractor returns the empty
    string, and [POST] answers 400 with the message about no readable
    text. *)
Theorem empty_pdf_is_refused (svc : Services) (request : NextRequest)
        (file : File) (buffer : Buffer) (u : unit) (pdf : PDFDocumentProxy) :
  accepted request file ->
  type file = lit "application/pdf" ->
  arrayBuffer file = Ok buffer ->
  import_pdfjs svc = Ok u ->
  getDocument svc buffer = Ok pdf ->
  numPages pdf = 0%nat ->
  result (extractTextFromPDF svc buffer) = Ok [] /\
  result (POST svc request) = Ok no_text_response.
Proof.
  intros Hacc Htype Hbuf Himp Hdoc Hn.
  assert (Hres : result (extractTextFromPDF svc buffer) = Ok []).
  { rewrite (extractTextFromPDF_returns svc buffer u pdf [] Himp Hdoc);
      [reflexivity | rewrite Hn; reflexivity]. }
  split; [assumption|].
  assert (Hx : extracts svc request file []).
  { exists buffer. repeat split; auto.
    unfold extract_text. rewrite Htype, eqb_refl. assumption. }
  destruct (POST_extracts _ _ _ _ Hx) as (a & _ & ->). reflexivity.
Qed.

Lemma empty_pdf_is_refused_witness :
  result (extractTextFromPDF (MoreSamples.world_with_pdf MoreSamples.no_pages) [])
  = Ok [] /\
  result (POST (MoreSamples.world_with_pdf MoreSamples.no_pages)
               (Samples.request_with Samples.docx_file))
  = Ok no_text_response.
Proof.
  apply (empty_pdf_is_refused (MoreSamples.world_with_pdf MoreSamples.no_pages)
           (Samples.request_with Samples.docx_file) Samples.docx_file []
           tt MoreSamples.no_pages).
  - apply docx_accepted.
  - reflexivity.
  - reflexivity.
  - reflexivity.
  - reflexivity.
  - reflexivity.
Defined.

(** X14.  A scan in which the OCR engine sees only whitespace is refused:
    [POST] answers 400 with the message about no readable text and never
    calls the analysis service. *)
Theorem blank_scan_is_refused (svc : Services) (request : NextRequest)
        (file : File) (buffer : Buffer) (worker : Worker) (raw : jsstring) :
  accepted request file ->
  type file <> lit "application/pdf" ->
  arrayBuffer file = Ok buffer ->
  createWorker svc = Ok worker ->
  loadLanguage worker (lit "eng") = Ok tt ->
  initialize worker (lit "eng") = Ok tt ->
  recognize worker buffer = Ok raw ->
  terminate worker = Ok tt ->
  forallb is_ws raw = true ->
  POST svc request = (ocr_script buffer, Ok no_text_response).
Proof.
  intros Hacc Htype Hbuf Hc Hl Hi Hr Ht Hws.
  assert (Hext : extract_text svc file buffer = (ocr_script buffer, Ok [])).
  { unfold extract_text. apply eqb_neq in Htype. rewrite Htype.
    unfold extractTextFromImage, try_catch, bind, call, ret.
    rewrite Hc, Hl, Hi, Hr, Ht, (trim_all_ws raw Hws). reflexivity. }
  rewrite (pair_of_trace_result (POST svc request)). f_equal.
  - rewrite (POST_trace_accepted _ _ _ Hacc), (process_file_trace _ _ _ Hbuf).
    rewrite Hext. cbn [trace result fst snd]. apply app_nil_r.
  - assert (Hx : extracts svc request file []).
    { exists buffer. repeat split; auto. rewrite Hext. reflexivity. }
    destruct (POST_extracts _ _ _ _ Hx) as (a & _ & ->). reflexivity.
Qed.

Lemma png_accepted :
  accepted (Samples.request_with Samples.png_file) Samples.png_file.
Proof.
  exists [ (lit "file", EntryFile Samples.png_file) ].
  repeat split; try reflexivity. vm_compute. discriminate.
Defined.

Lemma blank_scan_is_refused_witness :
  POST Samples.world_unreadable (Samples.request_with Samples.png_file)
  = (ocr_script [], Ok no_text_response).
Proof.
  apply (blank_scan_is_refused Samples.world_unreadable
           (Samples.request_with Samples.png_file) Samples.png_file []
           (Samples.worker_reading (lit "  ")) (lit "  ")).
  - apply png_accepted.
  - vm_compute. discriminate.
  - reflexivity.
  - reflexivity.
  - reflexivity.
  - reflexivity.
  - reflexivity.
  - reflexivity.
  - reflexivity.
Defined.

(** ** The analysis *)

(** X15.  [analyzeContent] never throws, whatever the SDK and JSON.parse
    do, and its calls are a beginning of import, create, one chat
    request. *)
Theorem analyzeContent_never_throws (svc : Services) (text : jsstring) :
  (exists a, result (analyzeContent svc text) = Ok a) /\
  prefix_of (trace (analyzeContent svc text)) (analysis_script text).
Proof.
  split; [apply analyzeContent_total | apply trace_analyzeContent_prefix].
Qed.

(** X16.  A reply that parses to anything but an object gives the fallback
    analysis: for null the property read throws and is caught, for a
    number, a string, a boolean or an array all four properties are
    missing. *)
Theorem non_object_reply_gives_fallback (svc : Services) (text : jsstring)
        (analysis : Value) :
  replies svc text analysis ->
  (forall props, analysis <> VObj props) ->
  result (analyzeContent svc text) = Ok fallback_analysis.
Proof.
  intros Hr Hno.
  destruct (analyzeContent_reply_cases _ _ _ Hr)
    as [H | (v & s & g & t & score & Hv & Hs & Hg & Ht & Hc & ->)];
    [assumption|].
  destruct analysis; try discriminate;
    try (cbn [Js.get] in Hv, Hs, Hg, Ht;
         injection Hv as <-; injection Hs as <-;
         injection Hg as <-; injection Ht as <-;
         rewrite clamp_falsy in Hc by reflexivity; injection Hc as <-;
         reflexivity).
  exfalso. eapply Hno. reflexivity.
Qed.

Lemma null_reply :
  replies MoreSamples.world_null (lit "Hello world") VNull.
Proof.
  exists tt. eexists. eexists. eexists. eexists. repeat split; reflexivity.
Defined.

Lemma non_object_reply_gives_fallback_witness :
  result (analyzeContent MoreSamples.world_null (lit "Hello world"))
  = Ok fallback_analysis.
Proof.
  apply (non_object_reply_gives_fallback MoreSamples.world_null
           (lit "Hello world") VNull).
  - apply null_reply.
  - intros props H. discriminate H.
Defined.

(** X17.  The reply's sentiment, suggestions and keyTopics are returned as
    they are whenever they are truthy: their type and content are not
    checked, so the sentiment need not be one of the three labels. *)
Theorem truthy_fields_returned_unchecked (svc : Services) (text : jsstring)
        (props : list (jsstring * Value)) :
  replies svc text (VObj props) ->
  number_like (match Js.assoc (lit "engagementScore") props with
               | Some x => x
               | None => VUndefined
               end) = true ->
  exists a,
    result (analyzeContent svc text) = Ok a /\
    (forall v, Js.assoc (lit "sentiment") props = Some v ->
               Js.ToBoolean v = true -> sentiment a = v) /\
    (forall v, Js.assoc (lit "suggestions") props = Some v ->
               Js.ToBoolean v = true -> suggestions a = v) /\
    (forall v, Js.assoc (lit "keyTopics") props = Some v ->
               Js.ToBoolean v = true -> keyTopics a = v).
Proof.
  intros Hr Hnum.
  destruct (clamp_number_like _ Hnum) as (r & Hclamp & _).
  rewrite (analyzeContent_replies _ _ _ Hr), build_analysis_result.
  cbn [Js.get]. rewrite Hclamp.
  eexists. split; [reflexivity|].
  cbn [sentiment suggestions keyTopics].
  repeat split; intros v Hv Htrue; rewrite Hv; unfold Js.or_else;
    rewrite Htrue; reflexivity.
Qed.

Lemma angry_reply :
  replies MoreSamples.world_angry (lit "Hello world")
          (VObj [ (lit "engagementScore", VNum (Fin (-5)));
                  (lit "sentiment", VStr (lit "angry")) ]).
Proof.
  exists tt. eexists. eexists. eexists. eexists. repeat split; reflexivity.
Defined.

Lemma truthy_fields_returned_unchecked_witness :
  exists a,
    result (analyzeContent MoreSamples.world_angry (lit "Hello world")) = Ok a /\
    sentiment a = VStr (lit "angry").
Proof.
  destruct (truthy_fields_returned_unchecked MoreSamples.world_angry
              (lit "Hello world")
              [ (lit "engagementScore", VNum (Fin (-5)));
                (lit "sentiment", VStr (lit "angry")) ]
              angry_reply eq_refl)
    as (a & Ha & Hs & _).
  exists a. split; [exact Ha|].
  apply Hs; reflexivity.
Defined.

Lemma clamp_score_fin (q : Q) :
  clamp_score (VNum (Fin q)) =
  Ok (if Qeq_bool q 0 then Fin 75
      else if Qle_bool 0 q
           then if Qle_bool 100 q then Fin 100 else Fin q
           else Fin 0).
Proof.
  unfold clamp_score, Js.or_else, Js.ToBoolean.
  destruct (Qeq_bool q 0); [reflexivity|].
  cbn [negb Js.Math_max Js.ToNumber Js.to_string_throws Js.to_number
       Js.max_num Js.num_leb].
  destruct (Qle_bool 0 q);
    cbn [Js.Math_min Js.ToNumber Js.to_string_throws Js.to_number
         Js.min_num Js.num_leb]; [|reflexivity].
  destruct (Qle_bool 100 q); reflexivity.
Qed.

(** X18.  What the clamp of line 114 does to a finite number [q] of the
    reply: 0 becomes 75, a negative number 0, a number of at least 100
    becomes 100, and a number strictly between 0 and 100 is kept.  So the
    score 0 is returned for negative replies only, never for the reply
    0. *)
Theorem score_clamp_cases (svc : Services) (text : jsstring)
        (props : list (jsstring * Value)) (q : Q) :
  replies svc text (VObj props) ->
  Js.assoc (lit "engagementScore") props = Some (VNum (Fin q)) ->
  exists a,
    result (analyzeContent svc text) = Ok a /\
    (q == 0 -> engagementScore a = Fin 75) /\
    (q < 0 -> engagementScore a = Fin 0) /\
    (0 < q -> q < 100 -> engagementScore a = Fin q) /\
    (100 <= q -> engagementScore a = Fin 100).
Proof.
  intros Hr Hq.
  rewrite (analyzeContent_replies _ _ _ Hr), build_analysis_result.
  cbn [Js.get]. rewrite Hq, clamp_score_fin.
  eexists. split; [reflexivity|]. cbn [engagementScore].
  split; [|split; [|split]].
  - intros H0. apply Qeq_bool_iff in H0. rewrite H0. reflexivity.
  - intros Hneg.
    assert (Hne : Qeq_bool q 0 = false).
    { destruct (Qeq_bool q 0) eqn:E; [|reflexivity].
      apply Qeq_bool_iff in E. rewrite E in Hneg.
      exfalso. exact (Qlt_irrefl 0 Hneg). }
    assert (Hle : Qle_bool 0 q = false).
    { destruct (Qle_bool 0 q) eqn:E; [|reflexivity].
      apply Qle_bool_iff in E. exfalso. exact (Qlt_not_le _ _ Hneg E). }
    rewrite Hne, Hle. reflexivity.
  - intros Hpos Hlt.
    assert (Hne : Qeq_bool q 0 = false).
    { destruct (Qeq_bool q 0) eqn:E; [|reflexivity].
      apply Qeq_bool_iff in E. rewrite E in Hpos.
      exfalso. exact (Qlt_irrefl 0 Hpos). }
    assert (Hle : Qle_bool 0 q = true).
    { apply Qle_bool_iff. apply Qlt_le_weak. assumption. }
    assert (Hhi : Qle_bool 100 q = false).
    { destruct (Qle_bool 100 q) eqn:E; [|reflexivity].
      apply Qle_bool_iff in E. exfalso. exact (Qlt_not_le _ _ Hlt E). }
    rewrite Hne, Hle, Hhi. reflexivity.
  - intros Hbig.
    assert (Hpos : 0 < q).
    { apply Qlt_le_trans with (y := 100); [reflexivity | assumption]. }
    assert (Hne : Qeq_bool q 0 = false).
    { destruct (Qeq_bool q 0) eqn:E; [|reflexivity].
      apply Qeq_bool_iff in E. rewrite E in Hpos.
      exfalso. exact (Qlt_irrefl 0 Hpos). }
    assert (Hle : Qle_bool 0 q = true).
    { apply Qle_bool_iff. apply Qlt_le_weak. assumption. }
    assert (Hhi : Qle_bool 100 q = true) by (apply Qle_bool_iff; assumption).
    rewrite Hne, Hle, Hhi. reflexivity.
Qed.

Lemma score_clamp_cases_witness :
  exists a,
    result (analyzeContent MoreSamples.world_angry (lit "Hello world")) = Ok a /\
    engagementScore a = Fin 0.
Proof.
  destruct (score_clamp_cases MoreSamples.world_angry (lit "Hello world")
              [ (lit "engagementScore", VNum (Fin (-5)));
                (lit "sentiment", VStr (lit "angry")) ]
              (-5) angry_reply eq_refl)
    as (a & Ha & _ & Hneg & _).
  exists a. split; [exact Ha|].
  apply Hneg. reflexivity.
Defined.

Lemma chat_event_of_POST (svc : Services) (request : NextRequest)
      (req : ChatRequest) :
  In (EvChatCreate req) (trace (POST svc request)) ->
  exists text, req = chat_request text.
Proof.
  destruct (POST_trace_split svc request) as (ex & an & -> & Hex & Han & _).
  rewrite in_app_iff. intros [Hin | Hin].
  - rewrite Forall_forall in Hex. apply Hex in Hin. discriminate.
  - destruct Han as [-> | [text ->]]; [destruct Hin|].
    exists text. exact (trace_analyzeContent svc text req Hin).
Qed.

(** X19.  The prompt is bounded whatever the size of the upload: a chat
    request sent by [POST] has two messages, system then user, the user
    message has at most 2579 characters (315 before the text, at most 2000
    of text, 264 after), and the reply is capped at 1000 tokens. *)
Theorem prompt_is_bounded (svc : Services) (request : NextRequest)
        (req : ChatRequest) :
  In (EvChatCreate req) (trace (POST svc request)) ->
  exists system user,
    messages req = [ system; user ] /\
    role system = lit "system" /\
    role user = lit "user" /\
    (List.length (content user) <= 2579)%nat /\
    max_tokens req = 1000%N.
Proof.
  intros Hin. destruct (chat_event_of_POST _ _ _ Hin) as [text ->].
  eexists. eexists. split; [reflexivity|]. repeat split.
  cbn [content]. unfold prompt_of. rewrite !length_app.
  pose proof (substring_0_length 2000 text) as Hsub.
  change (List.length prompt_head) with 315%nat.
  change (List.length prompt_tail) with 264%nat.
  lia.
Qed.

Lemma prompt_is_bounded_witness :
  exists system user,
    messages (chat_request (lit "Hello world" ++ newline ++ lit "from page two"))
    = [ system; user ] /\
    role system = lit "system" /\
    role user = lit "user" /\
    (List.length (content user) <= 2579)%nat /\
    max_tokens (chat_request (lit "Hello world" ++ newline ++ lit "from page two"))
    = 1000%N.
Proof.
  apply (prompt_is_bounded Samples.world_down
           (Samples.request_with Samples.pdf_file)).
  vm_compute. do 8 right. left. reflexivity.
Defined.

Lemma preview_length (text : jsstring) :
  (List.length (preview text) <= 1003)%nat.
Proof.
  unfold preview. rewrite length_app.
  pose proof (substring_0_length 1000 text).
  destruct (1000 <? List.length text)%nat; simpl; lia.
Qed.

(** X20.  A success response echoes the upload and stays small: fileName,
    fileSize and fileType are those of the file in the request, textLength
    is the length of the extracted text and is at least 10, and the
    extractedText preview has at most 1003 characters. *)
Theorem success_echoes_upload (svc : Services) (request : NextRequest)
        (resp : NextResponse) :
  result (POST svc request) = Ok resp ->
  Js.get (body resp) (lit "success") = Ok (VBool true) ->
  exists file text,
    extracts svc request file text /\
    Js.get (body resp) (lit "fileName") = Ok (VStr (name file)) /\
    Js.get (body resp) (lit "fileSize") = Ok (VNum (num_of_N (size file))) /\
    Js.get (body resp) (lit "fileType") = Ok (VStr (type file)) /\
    Js.get (body resp) (lit "textLength")
    = Ok (VNum (num_of_nat (List.length text))) /\
    (10 <= List.length text)%nat /\
    exists shown,
      Js.get (body resp) (lit "extractedText") = Ok (VStr shown) /\
      (List.length shown <= 1003)%nat.
Proof.
  intros Hres Hsucc.
  destruct (POST_cases svc request) as (resp' & Hres' & Hcases).
  rewrite Hres in Hres'. injection Hres' as <-.
  destruct Hcases as [-> | [-> | [-> | [-> | [(e & ->) |
    (file & text & a & Hext & Hshort & _ & ->)]]]]];
    try (vm_compute in Hsucc; discriminate).
  exists file, text. split; [assumption|].
  do 4 (split; [reflexivity|]). split.
  - destruct (Nat.le_gt_cases 10 (List.length text)) as [H | H]; [assumption|].
    apply too_short_iff in H. congruence.
  - exists (preview text). split; [reflexivity | apply preview_length].
Qed.

Lemma success_echoes_upload_witness :
  exists file text,
    extracts Samples.world_150 (Samples.request_with Samples.pdf_file) file text /\
    Js.get (body (success_response Samples.pdf_file
                    (lit "Hello world" ++ newline ++ lit "from page two")
                    {| engagementScore := Fin 100;
                       sentiment := VStr (lit "neutral");
                       suggestions := default_suggestions;
                       keyTopics := default_keyTopics |}))
           (lit "fileName") = Ok (VStr (name file)).
Proof.
  destruct (success_echoes_upload Samples.world_150
              (Samples.request_with Samples.pdf_file)
              (success_response Samples.pdf_file
                 (lit "Hello world" ++ newline ++ lit "from page two")
                 {| engagementScore := Fin 100;
                    sentiment := VStr (lit "neutral");
                    suggestions := default_suggestions;
                    keyTopics := default_keyTopics |}))
    as (file & text & Hext & Hname & _).
  - vm_compute. reflexivity.
  - vm_compute. reflexivity.
  - exists file, text. split; assumption.
Defined.

Lemma trim_is_clean (s : jsstring) :
  starts_clean (trim s) /\ starts_clean (rev (trim s)).
Proof.
  unfold trim. rewrite rev_involutive. split; [|apply drop_ws_clean].
  destruct (drop_ws_split (rev (drop_ws s))) as (w & Hsplit & _).
  assert (Ha : drop_ws s = rev (drop_ws (rev (drop_ws s))) ++ rev w).
  { rewrite <- (rev_involutive (drop_ws s)) at 1.
    rewrite Hsplit at 1. apply rev_app_distr. }
  apply starts_clean_prefix with (q := rev w).
  rewrite <- Ha. apply drop_ws_clean.
Qed.

(** X21.  Both extractors hand back their text already trimmed: it neither
    begins nor ends with whitespace, so the second [trim] of line 194
    never changes it. *)
Theorem extracted_text_is_trimmed (svc : Services) (file : File)
        (buffer : Buffer) (text : jsstring) :
  result (extract_text svc file buffer) = Ok text ->
  trim text = text /\ starts_clean text /\ starts_clean (rev text).
Proof.
  intros Hres.
  pose proof (extract_text_trimmed svc file buffer text Hres) as Htrim.
  split; [assumption|].
  rewrite <- Htrim. apply trim_is_clean.
Qed.

Lemma extracted_text_is_trimmed_witness :
  trim (lit "scanned words on a page") = lit "scanned words on a page" /\
  starts_clean (lit "scanned words on a page") /\
  starts_clean (rev (lit "scanned words on a page")).
Proof.
  apply (extracted_text_is_trimmed Samples.world_150 Samples.png_file []).
  vm_compute. reflexivity.
Defined.

(** * Properties of the page *)

Section PageFacts.

Lemma change_keeps_id (c : Page.Change) (u : Page.FileUpload) :
  Page.id (Page.change c u) = Page.id u.
Proof. destruct c; reflexivity. Qed.

Lemma change_keeps_file (c : Page.Change) (u : Page.FileUpload) :
  Page.file (Page.change c u) = Page.file u.
Proof. destruct c; reflexivity. Qed.

End PageFacts.

(** X22.  For every file the route accepts, the icon of the card agrees
    with the extractor the route uses: the [includes('pdf')] test of the
    page holds exactly when the declared type is application/pdf. *)
Theorem icon_agrees_with_extractor (svc : Services) (f : File) (buffer : Buffer) :
  array_includes allowedTypes (type f) = true ->
  Page.shows_pdf_icon f = JsString.eqb (type f) (lit "application/pdf") /\
  extract_text svc f buffer
  = if Page.shows_pdf_icon f
    then extractTextFromPDF svc buffer
    else extractTextFromImage svc buffer.
Proof.
  intros Hin.
  assert (Hicon : Page.shows_pdf_icon f
                  = JsString.eqb (type f) (lit "application/pdf")).
  { apply array_includes_In in Hin. unfold Page.shows_pdf_icon.
    repeat (destruct Hin as [<- | Hin]; [vm_compute; reflexivity|]).
    destruct Hin. }
  split; [assumption|]. unfold extract_text. rewrite Hicon. reflexivity.
Qed.

Lemma icon_agrees_with_extractor_witness :
  Page.shows_pdf_icon Samples.png_file
  = JsString.eqb (type Samples.png_file) (lit "application/pdf") /\
  extract_text Samples.world_150 Samples.png_file []
  = if Page.shows_pdf_icon Samples.png_file
    then extractTextFromPDF Samples.world_150 []
    else extractTextFromImage Samples.world_150 [].
Proof.
  apply (icon_agrees_with_extractor Samples.world_150 Samples.png_file []).
  reflexivity.
Defined.

(** X23.  The snippet a card shows for a success response is the first 200
    characters of the whole extracted text followed by three dots: the
    route's cut at 1000 characters never shows, and the dots are there
    even when nothing was cut. *)
Theorem snippet_of_preview (text : jsstring) :
  Page.snippet (preview text) = firstn 200 text ++ lit "...".
Proof.
  unfold Page.snippet, preview. rewrite !substring_0. f_equal.
  destruct (1000 <? List.length text)%nat eqn:Hlen.
  - apply Nat.ltb_lt in Hlen.
    rewrite firstn_app, firstn_firstn, length_firstn.
    replace (Nat.min 200 1000) with 200%nat by reflexivity.
    replace (200 - Nat.min 1000 (List.length text))%nat with 0%nat by lia.
    apply app_nil_r.
  - rewrite app_nil_r. rewrite firstn_firstn. reflexivity.
Qed.

(** X24.  State changes of different uploads commute, so the interleaving
    of several [processFile] runs does not matter; each change keeps the
    identifiers and the files of the list, in order. *)
Theorem updates_of_different_uploads_commute
        (t1 t2 : jsstring) (c1 c2 : Page.Change) (prev : list Page.FileUpload) :
  t1 <> t2 ->
  Page.update t1 c1 (Page.update t2 c2 prev)
  = Page.update t2 c2 (Page.update t1 c1 prev)
  /\ map Page.id (Page.update t1 c1 prev) = map Page.id prev
  /\ map Page.file (Page.update t1 c1 prev) = map Page.file prev.
Proof.
  intros Hne. unfold Page.update. rewrite !map_map. repeat split.
  - apply map_ext. intros u.
    destruct (JsString.eqb (Page.id u) t1) eqn:H1;
      destruct (JsString.eqb (Page.id u) t2) eqn:H2;
      rewrite ?change_keeps_id, ?H1, ?H2; try reflexivity.
    apply eqb_eq in H1. apply eqb_eq in H2. congruence.
  - apply map_ext. intros u.
    destruct (JsString.eqb (Page.id u) t1); [apply change_keeps_id | reflexivity].
  - apply map_ext. intros u.
    destruct (JsString.eqb (Page.id u) t1); [apply change_keeps_file | reflexivity].
Qed.

Lemma updates_of_different_uploads_commute_witness :
  Page.update (lit "a1") (Page.SetProgress 40)
    (Page.update (lit "b2") Page.StartProcessing
       [ MoreSamples.card "a1" Page.uploading 30;
         MoreSamples.card "b2" Page.uploading 100 ])
  = Page.update (lit "b2") Page.StartProcessing
      (Page.update (lit "a1") (Page.SetProgress 40)
         [ MoreSamples.card "a1" Page.uploading 30;
           MoreSamples.card "b2" Page.uploading 100 ]).
Proof.
  apply (updates_of_different_uploads_commute (lit "a1") (lit "b2")
           (Page.SetProgress 40) Page.StartProcessing).
  vm_compute. discriminate.
Defined.

(** X25.  A removed card never comes back: a state change that arrives
    for an upload after [removeUpload] changes nothing, removing after the
    change gives the same list, and removing never touches the other
    cards' changes. *)
Theorem removed_upload_stays_removed
        (t t' : jsstring) (c : Page.Change) (prev : list Page.FileUpload) :
  Page.update t c (Page.removeUpload t prev) = Page.removeUpload t prev
  /\ Page.removeUpload t (Page.update t c prev) = Page.removeUpload t prev
  /\ Page.removeUpload t (Page.update t' c prev)
     = Page.update t' c (Page.removeUpload t prev)
  /\ Forall (fun u => Page.id u <> t) (Page.removeUpload t prev).
Proof.
  unfold Page.update, Page.removeUpload. repeat split.
  - induction prev as [|u prev IH]; [reflexivity|]. simpl.
    destruct (JsString.eqb (Page.id u) t) eqn:Hu; simpl; [assumption|].
    rewrite Hu, IH. reflexivity.
  - induction prev as [|u prev IH]; [reflexivity|]. simpl.
    destruct (JsString.eqb (Page.id u) t) eqn:Hu.
    + rewrite change_keeps_id, Hu. simpl. assumption.
    + rewrite Hu. simpl. rewrite IH. reflexivity.
  - induction prev as [|u prev IH]; [reflexivity|]. simpl.
    destruct (JsString.eqb (Page.id u) t') eqn:Hu';
      rewrite ?change_keeps_id;
      destruct (JsString.eqb (Page.id u) t) eqn:Hu; simpl;
      rewrite ?Hu', IH; reflexivity.
  - apply Forall_forall. intros u Hin. apply filter_In in Hin.
    destruct Hin as [_ Hne]. apply negb_true_iff in Hne.
    apply eqb_neq. assumption.
Qed.

(** A failure that arrives after the card was closed changes nothing. *)
Example late_failure_after_removal :
  Page.update (lit "a1") (Page.Fail NotAnError)
    (Page.removeUpload (lit "a1")
       [ MoreSamples.card "a1" Page.processing 0;
         MoreSamples.card "b2" Page.uploading 100 ])
  = [ MoreSamples.card "b2" Page.uploading 100 ].
Proof. vm_compute. reflexivity. Qed.
